(** * A directory-listing HTTP service: shallow embedding and verification

    The development follows the three Python modules of the service:

    - [config.py]: the class body of [Config], executed once when the module
      is imported;
    - [server/routes/logical_route.py]: the handler [GetDirectory.get] of the
      route [GET /api/meta];
    - [main.py] / [server/__init__.py]: start-up, which imports [Config] and
      then serves requests.

    Python code that reads or writes the process environment and that calls
    into the operating system is embedded in a state-and-exception monad over
    a [world]: the process environment ([os.environ]), the file system as the
    system calls see it, and the log of system calls made so far.  Python
    strings are byte strings ([String.string]); the only characters the code
    inspects are the ASCII characters [/] and [.], which never occur inside a
    multi-byte UTF-8 sequence, so nothing is lost. *)

From Stdlib Require Import ZArith QArith Ascii.
From stdpp Require Import base option list strings gmap.

Local Open Scope Z_scope.

(** ** Python values and exceptions *)

(** The exceptions that the embedded code can raise. *)
Inductive exn : Type :=
  | IndexError
  | ValueError
  | OverflowError
  | OSError              (* an [OSError] of no more specific class *)
  | FileNotFoundError
  | NotADirectoryError
  | PermissionError.

#[global] Instance exn_eq_dec : EqDecision exn.
Proof. solve_decision. Defined.

(** [OSError] and its subclasses, the ones [os.path.isfile] swallows. *)
Definition is_OSError (e : exn) : bool :=
  match e with
  | OSError | FileNotFoundError | NotADirectoryError | PermissionError => true
  | IndexError | ValueError | OverflowError => false
  end.

(** The outcome of running a piece of Python code. *)
Inductive outcome (A : Type) : Type :=
  | Return (a : A)
  | Raise (e : exn).
Arguments Return {A} a.
Arguments Raise {A} e.

(** The two kinds of Python values that [os.environ.get(k, False)] yields. *)
Inductive pyval : Type :=
  | PyStr (s : string)
  | PyBool (b : bool).

(** Python's [==] on those values: a [str] never equals a [bool]. *)
Definition py_eq (a b : pyval) : bool :=
  match a, b with
  | PyStr s, PyStr t => bool_decide (s = t)
  | PyBool x, PyBool y => bool_decide (x = y)
  | _, _ => false
  end.

(** ** The file system, as system calls see it *)

(** [st_mode] restricted to the file type bits. *)
Inductive file_type : Type :=
  | S_IFREG      (* regular file *)
  | S_IFDIR      (* directory *)
  | S_IFOTHER.   (* fifo, socket, device, ... *)

(** What a path resolves to, symbolic links followed.  [st_ctime] is a
    floating-point number of seconds in Python; it is a rational here.
    A directory carries its entry names in enumeration order, or [None] when
    the process may not read it. *)
Record inode : Type := Inode {
  st_mode : file_type;
  st_ctime : Q;
  dir_entries : option (list string);
}.

(** The system calls the service makes. *)
Inductive syscall : Type :=
  | SysListdir (path : string)
  | SysStat (path : string).

(** The state the code runs in.  [fs] maps a path, as passed to a system
    call, to what it resolves to; a path that resolves to nothing (no such
    file, or a symbolic link whose target is missing) is absent. *)
Record world : Type := World {
  environ : gmap string string;
  fs : gmap string inode;
  syscalls : list syscall;
}.

Definition set_environ (env : gmap string string) (w : world) : world :=
  {| environ := env; fs := fs w; syscalls := syscalls w |}.

Definition log_syscall (c : syscall) (w : world) : world :=
  {| environ := environ w; fs := fs w; syscalls := syscalls w ++ [c] |}.

(** ** The monad of Python code *)

Definition Py (A : Type) : Type := world → outcome A * world.

Definition py_ret {A} (a : A) : Py A := λ w, (Return a, w).

Definition py_raise {A} (e : exn) : Py A := λ w, (Raise e, w).

Definition py_bind {A B} (m : Py A) (k : A → Py B) : Py B :=
  λ w, match m w with
       | (Return a, w') => k a w'
       | (Raise e, w') => (Raise e, w')
       end.

(** stdpp's notations: [x ← m; k] is [py_bind m (λ x, k)]. *)
#[global] Instance Py_ret : MRet Py := @py_ret.
#[global] Instance Py_bind : MBind Py := λ A B k m, py_bind m k.

(** ** [os.environ] *)

(** [os.environ[k] = v] *)
Definition os_environ_setitem (k v : string) : Py unit :=
  λ w, (Return tt, set_environ (<[k := v]> (environ w)) w).

(** [os.environ.get(k, default)] *)
Definition os_environ_get (k : string) (dflt : pyval) : Py pyval :=
  λ w, (Return (from_option PyStr dflt (environ w !! k)), w).

(** [os.getenv(k, default)] with a string default *)
Definition os_getenv (k dflt : string) : Py string :=
  λ w, (Return (default dflt (environ w !! k)), w).

(** ** [config.py] *)

(** The attributes of the class [Config]. *)
Record ServerConfig : Type := { DEBUG : bool }.

(** The body of [class Config(ServerConfig)], run when [config] is imported:
[[
    os.environ["DIRECTORY"] = "./"
    DEBUG = os.environ.get("PROJECT_DEBUG", False) == "True"
]] *)
Definition Config : Py ServerConfig :=
  _ ← os_environ_setitem "DIRECTORY" "./";
  v ← os_environ_get "PROJECT_DEBUG" (PyBool false);
  mret {| DEBUG := py_eq v (PyStr "True") |}.

(** ** Python strings *)

Definition len (s : string) : Z := Z.of_nat (String.length s).

Fixpoint string_drop (n : nat) (s : string) : string :=
  match n, s with
  | O, _ => s
  | S n', String _ s' => string_drop n' s'
  | S _, "" => ""
  end.

Fixpoint string_take (n : nat) (s : string) : string :=
  match n, s with
  | S n', String a s' => String a (string_take n' s')
  | _, _ => ""
  end.

(** An index or slice bound, as Python resolves it: a negative one counts
    from the end. *)
Definition from_end (s : string) (i : Z) : Z :=
  if i <? 0 then i + len s else i.

(** [s[i]] *)
Definition getitem (s : string) (i : Z) : outcome ascii :=
  let j := from_end s i in
  if (j <? 0) || (len s <=? j) then Raise IndexError
  else match String.get (Z.to_nat j) s with
       | Some c => Return c
       | None => Raise IndexError
       end.

(** [s[lo:hi]]: both bounds are clamped to [0 .. len s]. *)
Definition slice (s : string) (lo hi : Z) : string :=
  let clamp i := Z.max 0 (Z.min (len s) (from_end s i)) in
  string_take (Z.to_nat (clamp hi - clamp lo)) (string_drop (Z.to_nat (clamp lo)) s).

(** [s[lo:]] *)
Definition slice_from (s : string) (lo : Z) : string := slice s lo (len s).

(** [s.rfind(c)] for a one-character [c]: the highest index of [c], or -1. *)
Fixpoint rfind (c : ascii) (s : string) : Z :=
  match s with
  | "" => -1
  | String a s' =>
      let r := rfind c s' in
      if 0 <=? r then r + 1
      else if bool_decide (a = c) then 0 else -1
  end.

(** ** [os.path.splitext] *)

(** The loop of [genericpath._splitext] that skips the leading dots of the
    file name:
[[
        while filenameIndex < dotIndex:
            if p[filenameIndex:filenameIndex+1] != extsep:
                return p[:dotIndex], p[dotIndex:]
            filenameIndex += 1
    return p, p[:0]
]]
    [n] bounds the iterations; [dotIndex - filenameIndex] is enough. *)
Fixpoint skip_leading_dots (p : string) (extsep : ascii) (dotIndex : Z)
    (n : nat) (filenameIndex : Z) : string * string :=
  match n with
  | O => (p, slice p 0 0)
  | S n' =>
      if filenameIndex <? dotIndex then
        if bool_decide (slice p filenameIndex (filenameIndex + 1) ≠ String extsep "")
        then (slice p 0 dotIndex, slice_from p dotIndex)
        else skip_leading_dots p extsep dotIndex n' (filenameIndex + 1)
      else (p, slice p 0 0)
  end.

(** [genericpath._splitext(p, sep, altsep, extsep)] *)
Definition genericpath_splitext (p : string) (sep : ascii) (altsep : option ascii)
    (extsep : ascii) : string * string :=
  let sepIndex := rfind sep p in
  let sepIndex :=
    match altsep with
    | Some a => Z.max sepIndex (rfind a p)
    | None => sepIndex
    end in
  let dotIndex := rfind extsep p in
  if sepIndex <? dotIndex then
    skip_leading_dots p extsep dotIndex
      (Z.to_nat (dotIndex - (sepIndex + 1))) (sepIndex + 1)
  else (p, slice p 0 0).

(** [posixpath.splitext]: [sep] is [/], there is no [altsep], [extsep] is [.]. *)
Definition splitext (p : string) : string * string :=
  genericpath_splitext p "/"%char None "."%char.

(** ** [datetime] *)

(** [int(x)] on a float: truncation towards zero. *)
Definition int_of_float (x : Q) : Z := Z.quot (Qnum x) (Z.pos (Qden x)).

Record datetime : Type := {
  year : Z; month : Z; day : Z; hour : Z; minute : Z; second : Z;
}.

(** The proleptic Gregorian date of a day number counted from 1970-01-01. *)
Definition civil_from_days (z : Z) : Z * Z * Z :=
  let z := z + 719468 in
  let era := z / 146097 in
  let doe := z - era * 146097 in
  let yoe := (doe - doe / 1460 + doe / 36524 - doe / 146096) / 365 in
  let doy := doe - (365 * yoe + yoe / 4 - yoe / 100) in
  let mp := (5 * doy + 2) / 153 in
  let d := doy - (153 * mp + 2) / 5 + 1 in
  let m := if mp <? 10 then mp + 3 else mp - 9 in
  let y := yoe + era * 400 + (if m <=? 2 then 1 else 0) in
  (y, m, d).

(** [datetime.utcfromtimestamp(ts)] for an integer [ts], as CPython computes
    it on Linux: [ts] must fit the 64-bit [time_t] ([OverflowError]
    otherwise); the C library's [gmtime] must be able to store the year, less
    1900, in a 32-bit [int] ([OSError] otherwise); and [datetime] refuses a
    year outside [1 .. 9999] with [ValueError]. *)
Definition utcfromtimestamp (ts : Z) : outcome datetime :=
  if (ts <? - 2 ^ 63) || (2 ^ 63 <=? ts) then Raise OverflowError
  else
    let '(y, m, d) := civil_from_days (ts / 86400) in
    let s := ts mod 86400 in
    if (y - 1900 <? - 2 ^ 31) || (2 ^ 31 <=? y - 1900) then Raise OSError
    else if (1 <=? y) && (y <=? 9999) then
      Return {| year := y; month := m; day := d;
                hour := s / 3600; minute := (s mod 3600) / 60; second := s mod 60 |}
    else Raise ValueError.

Definition digit (n : Z) : ascii := ascii_of_nat (48 + Z.to_nat (n mod 10)).

(** The last [width] decimal digits of [n], zero-padded, in front of [acc]. *)
Fixpoint zero_padded (width : nat) (n : Z) (acc : string) : string :=
  match width with
  | O => acc
  | S w => zero_padded w (n / 10) (String (digit n) acc)
  end.

(** The number of decimal digits of a year between 1 and 9999. *)
Definition year_width (y : Z) : nat :=
  if y <? 10 then 1 else if y <? 100 then 2 else if y <? 1000 then 3 else 4.

(** [dt.strftime('%Y-%m-%d %H:%M:%S')], as CPython formats it through the C
    library of Linux: [%Y] is the year in decimal with no padding, so a year
    below 1000 has fewer than four digits; the other fields are padded to
    two digits. *)
Definition strftime (dt : datetime) : string :=
  zero_padded (year_width (year dt)) (year dt) "" +:+ "-"
  +:+ zero_padded 2 (month dt) "" +:+ "-"
  +:+ zero_padded 2 (day dt) "" +:+ " " +:+ zero_padded 2 (hour dt) "" +:+ ":"
  +:+ zero_padded 2 (minute dt) "" +:+ ":" +:+ zero_padded 2 (second dt) "".

Definition format_timestamp (ts : Z) : outcome string :=
  match utcfromtimestamp ts with
  | Return dt => Return (strftime dt)
  | Raise e => Raise e
  end.

(** ** [os] and [os.path] *)

(** Lift an outcome computed without effects. *)
Definition py_lift {A} (r : outcome A) : Py A := λ w, (r, w).

(** [try: m  except <the exceptions in catches>: h] *)
Definition py_try {A} (m : Py A) (catches : exn → bool) (h : Py A) : Py A :=
  λ w, match m w with
       | (Raise e, w') => if catches e then h w' else (Raise e, w')
       | r => r
       end.

(** [os.stat(path)]: follows symbolic links; a path that resolves to nothing
    raises [FileNotFoundError]. The file system of a [world] knows this one
    failure of the system call: a path either resolves or does not. *)
Definition os_stat (path : string) : Py inode :=
  λ w, let w' := log_syscall (SysStat path) w in
       match fs w !! path with
       | Some i => (Return i, w')
       | None => (Raise FileNotFoundError, w')
       end.

(** [os.listdir(path)]: the names of the entries, in enumeration order. *)
Definition os_listdir (path : string) : Py (list string) :=
  λ w, let w' := log_syscall (SysListdir path) w in
       match fs w !! path with
       | None => (Raise FileNotFoundError, w')
       | Some i =>
           match st_mode i, dir_entries i with
           | S_IFDIR, Some names => (Return names, w')
           | S_IFDIR, None => (Raise PermissionError, w')
           | _, _ => (Raise NotADirectoryError, w')
           end
       end.

(** [os.path.getctime(path)] is [os.stat(path).st_ctime]. *)
Definition os_path_getctime (path : string) : Py Q :=
  st ← os_stat path; mret (st_ctime st).

Definition S_ISREG (m : file_type) : bool :=
  match m with S_IFREG => true | _ => false end.

(** [os.path.isfile(path)]:
[[
    try:
        st = os.stat(path)
    except (OSError, ValueError):
        return False
    return stat.S_ISREG(st.st_mode)
]] *)
Definition os_path_isfile (path : string) : Py bool :=
  py_try (st ← os_stat path; mret (S_ISREG (st_mode st)))
         (λ e, is_OSError e || bool_decide (e = ValueError))
         (mret false).

(** ** [server/routes/logical_route.py] *)

(** One item of the response: the dictionary
    [{"name": ..., "type": ..., "time": ...}]. *)
Record FileEntry : Type := {
  name : string;
  type : string;
  time : string;
}.

(** The response body [{"data": [...]}]. *)
Record MetaResponse : Type := { data : list FileEntry }.

(** [resp["data"].append(e)] *)
Definition append (resp : MetaResponse) (e : FileEntry) : MetaResponse :=
  {| data := data resp ++ [e] |}.

(** The loop of the handler over the listed names:
[[
    for f in os.listdir(directory):
        ts = int(os.path.getctime(directory + f))
        t = datetime.utcfromtimestamp(ts).strftime('%Y-%m-%d %H:%M:%S')
        if os.path.isfile(directory + f):
            resp["data"].append({
                "name": f,
                "type": os.path.splitext(f)[1],
                "time": t,
            })
]] *)
Fixpoint for_f_in (names : list string) (directory : string)
    (resp : MetaResponse) : Py MetaResponse :=
  match names with
  | [] => mret resp
  | f :: names' =>
      ctime ← os_path_getctime (directory +:+ f);
      let ts := int_of_float ctime in
      t ← py_lift (format_timestamp ts);
      isfile ← os_path_isfile (directory +:+ f);
      let resp :=
        if (isfile : bool)
        then append resp {| name := f; type := (splitext f).2; time := t |}
        else resp in
      for_f_in names' directory resp
  end.

(** The first lines of the handler, after the directory is read:
[[
    if directory[-1] != "/":
        directory += "/"
]] *)
Definition add_trailing_separator (directory : string) : outcome string :=
  match getitem directory (-1) with
  | Return c =>
      if bool_decide (c ≠ "/"%char) then Return (directory +:+ "/")
      else Return directory
  | Raise e => Raise e
  end.

(** [GetDirectory.get(self)]: the handler of [GET /api/meta]. It returns the
    response body and the status. *)
Definition get : Py (MetaResponse * Z) :=
  let resp := {| data := [] |} in
  directory ← os_getenv "DIRECTORY" "./";
  directory ← py_lift (add_trailing_separator directory);
  names ← os_listdir directory;
  resp ← for_f_in names directory resp;
  mret (resp, 200).

(** ** A sample world *)

Definition regular (ctime : Q) : inode :=
  {| st_mode := S_IFREG; st_ctime := ctime; dir_entries := None |}.

Definition directory_of (ctime : Q) (names : list string) : inode :=
  {| st_mode := S_IFDIR; st_ctime := ctime; dir_entries := Some names |}.

(** [./] holds two regular files and a subdirectory; [/srv/] holds one
    hidden file; [/lnk/] holds a regular file and a symbolic link [gone]
    whose target is missing, so that [/lnk/gone] resolves to nothing. *)
Definition sample_fs : gmap string inode :=
  <["./" := directory_of 1700000000 ["report.tar.gz"; "sub"; "README"]]>
  (<["./report.tar.gz" := regular (17000000005 # 10)]>
  (<["./sub" := directory_of 1700000100 []]>
  (<["./README" := regular 951782400]>
  (<["/srv/" := directory_of 1700000000 [".bashrc"]]>
  (<["/srv/.bashrc" := regular 0]>
  (<["/lnk/" := directory_of 1700000000 ["a.txt"; "gone"]]>
  (<["/lnk/a.txt" := regular 0]> ∅))))))).

Definition sample_world (env : gmap string string) : world :=
  {| environ := env; fs := sample_fs; syscalls := [] |}.


(** ** Notions used in the statements *)

(** The extension as the specification words it: the substring of the file
    name that begins at its last period, or the empty string when the name
    has no period. *)
Fixpoint last_period_suffix (s : string) : option string :=
  match s with
  | "" => None
  | String a s' =>
      match last_period_suffix s' with
      | Some t => Some t
      | None => if bool_decide (a = "."%char) then Some s else None
      end
  end.

Definition spec_extension (f : string) : string :=
  default "" (last_period_suffix f).

(** What precedes the last period of a file name (the whole name when it has
    no period). *)
Definition stem (f : string) : string :=
  string_take (String.length f - String.length (spec_extension f)) f.

Fixpoint all_periods (s : string) : bool :=
  match s with
  | "" => true
  | String a s' => bool_decide (a = "."%char) && all_periods s'
  end.

(** The character [c] occurs in [s]. *)
Fixpoint occurs (c : ascii) (s : string) : bool :=
  match s with
  | "" => false
  | String a s' => bool_decide (a = c) || occurs c s'
  end.

(** The path ends in the separator [/]. *)
Definition ends_in_separator (d : string) : Prop := ∃ d', d = d' +:+ "/".

(** The directory a request handled in [w] is configured to list: the value
    of [DIRECTORY] at that moment. *)
Definition configured_directory (w : world) : string :=
  default "./" (environ w !! "DIRECTORY").

(** The system calls that [m] makes when run in [w]. *)
Definition calls_of {A} (m : Py A) (w : world) : list syscall :=
  drop (length (syscalls w)) (syscalls (m w).2).

(** The directories that [m] lists when run in [w]. *)
Definition listed_by {A} (m : Py A) (w : world) : list string :=
  omap (λ c, match c with SysListdir p => Some p | SysStat _ => None end)
       (calls_of m w).

(** The paths whose metadata [m] reads when run in [w]. *)
Definition stats_of {A} (m : Py A) (w : world) : list string :=
  omap (λ c, match c with SysStat p => Some p | SysListdir _ => None end)
       (calls_of m w).

(** The entries of a response; none when the handler raised. *)
Definition data_of (r : outcome (MetaResponse * Z)) : list FileEntry :=
  match r with
  | Return (resp, _) => data resp
  | Raise _ => []
  end.

(** [path] resolves to a regular file in [w]. *)
Definition is_regular_file (w : world) (path : string) : bool :=
  match fs w !! path with
  | Some i => S_ISREG (st_mode i)
  | None => false
  end.

(** [path] resolves to something whose change time the handler can format. *)
Definition dated (w : world) (path : string) : Prop :=
  ∃ i t, fs w !! path = Some i ∧
         format_timestamp (int_of_float (st_ctime i)) = Return t.

(** [directory] is a readable directory of [w] whose entries are [names]. *)
Definition readable_directory (w : world) (directory : string)
    (names : list string) : Prop :=
  ∃ i, fs w !! directory = Some i ∧ st_mode i = S_IFDIR ∧
       dir_entries i = Some names.

(** The entry [e] describes the file [directory + name e] of [w]. *)
Definition describes (w : world) (directory : string) (e : FileEntry) : Prop :=
  is_regular_file w (directory +:+ name e) = true ∧
  type e = (splitext (name e)).2 ∧
  ∃ i, fs w !! (directory +:+ name e) = Some i ∧
       format_timestamp (int_of_float (st_ctime i)) = Return (time e).

(** Two worlds that differ at most in the log of system calls. *)
Definition same_state (w w' : world) : Prop :=
  environ w = environ w' ∧ fs w = fs w'.

(** Two worlds with the same file system. *)
Definition same_fs (w w' : world) : Prop := fs w = fs w'.

(** A view of the world: an equivalence that ignores the log of system calls
    and that tells file systems apart. *)
Class View (R : relation world) : Prop := {
  view_equiv :: Equivalence R;
  view_log c w : R w (log_syscall c w);
  view_fs w w' : R w w' → fs w = fs w';
}.

(** Code that only observes what [R] sees of the world: it leaves that part
    as it is, extends the log, and neither its outcome nor the calls it makes
    depend on anything else. *)
Definition observer (R : relation world) {A} (m : Py A) : Prop :=
  ∀ w, R w (m w).2 ∧
       (∃ l, syscalls (m w).2 = syscalls w ++ l ∧
             ∀ w', R w w' →
                   (m w').1 = (m w).1 ∧ syscalls (m w').2 = syscalls w' ++ l).

(** The metadata reads of the loop over [names]: two per entry, one by
    [os.path.getctime] and one by [os.path.isfile]. *)
Definition stat_calls (directory : string) (names : list string) : list syscall :=
  names ≫= λ f, [SysStat (directory +:+ f); SysStat (directory +:+ f)].

(** The entry that the loop appends for the name [f], if any. *)
Definition entry_of (w : world) (directory f : string) : option FileEntry :=
  match fs w !! (directory +:+ f) with
  | Some i =>
      match format_timestamp (int_of_float (st_ctime i)) with
      | Return t =>
          if S_ISREG (st_mode i)
          then Some {| name := f; type := (splitext f).2; time := t |}
          else None
      | Raise _ => None
      end
  | None => None
  end.

(** A world whose only directory, [/empty/], holds nothing. *)
Definition empty_directory_world (env : gmap string string) : world :=
  {| environ := env; fs := {["/empty/" := directory_of 1700000000 []]};
     syscalls := [] |}.

(** The sample world with the entries of [./] enumerated in another
    order. *)
Definition reordered_world (env : gmap string string) : world :=
  {| environ := env;
     fs := <["./" := directory_of 1700000000 ["README"; "sub"; "report.tar.gz"]]>
             sample_fs;
     syscalls := [] |}.

(** A world whose only directory, [/private/], may not be read. *)
Definition unreadable_directory_world (env : gmap string string) : world :=
  {| environ := env;
     fs := {["/private/" := {| st_mode := S_IFDIR; st_ctime := 1700000000;
                               dir_entries := None |}]};
     syscalls := [] |}.

(** The world in which [n] requests have been handled, one after the other,
    since [w]. *)
Fixpoint requests (n : nat) (w : world) : world :=
  match n with
  | O => w
  | S n' => (get (requests n' w)).2
  end.

#[global] Instance file_type_eq_dec : EqDecision file_type.
Proof. solve_decision. Defined.

(** [path] resolves to a regular file of [w], links followed: the file type
    that [os.stat] reports is [S_IFREG]. *)
Definition regular_at (w : world) (path : string) : bool :=
  match fs w !! path with
  | Some i => bool_decide (st_mode i = S_IFREG)
  | None => false
  end.

(** ** Examples *)

Example splitext_ex1 : splitext "report.tar.gz" = ("report.tar", ".gz").
Proof. reflexivity. Qed.
Example splitext_ex2 : splitext "README" = ("README", "").
Proof. reflexivity. Qed.
Example splitext_ex3 : splitext ".bashrc" = (".bashrc", "").
Proof. reflexivity. Qed.
Example splitext_ex4 : splitext "..a.b" = ("..a", ".b").
Proof. reflexivity. Qed.
Example splitext_ex5 : splitext "a.d/.x" = ("a.d/.x", "").
Proof. reflexivity. Qed.
Example splitext_ex6 : splitext "x." = ("x", ".").
Proof. reflexivity. Qed.
Example format_epoch : format_timestamp 0 = Return "1970-01-01 00:00:00".
Proof. reflexivity. Qed.
Example format_leap_day : format_timestamp 951782400 = Return "2000-02-29 00:00:00".
Proof. reflexivity. Qed.
Example format_2023 : format_timestamp 1700000000 = Return "2023-11-14 22:13:20".
Proof. reflexivity. Qed.
Example format_before_epoch : format_timestamp (-1) = Return "1969-12-31 23:59:59".
Proof. reflexivity. Qed.
Example format_last : format_timestamp 253402300799 = Return "9999-12-31 23:59:59".
Proof. reflexivity. Qed.
Example format_first : format_timestamp (-62135596800) = Return "1-01-01 00:00:00".
Proof. reflexivity. Qed.
Example format_year_999 : format_timestamp (-30610224001) = Return "999-12-31 23:59:59".
Proof. reflexivity. Qed.
Example format_year_1000 : format_timestamp (-30610224000) = Return "1000-01-01 00:00:00".
Proof. reflexivity. Qed.
Example format_year_0 : format_timestamp (-62135596801) = Raise ValueError.
Proof. reflexivity. Qed.
Example format_gmtime_overflow :
  format_timestamp (2 ^ 62) = Raise OSError.
Proof. reflexivity. Qed.
Example format_time_t_overflow :
  format_timestamp (2 ^ 63) = Raise OverflowError.
Proof. reflexivity. Qed.
Example format_too_late : format_timestamp 253402300800 = Raise ValueError.
Proof. reflexivity. Qed.
Example get_sample :
  (get (sample_world ∅)).1 =
  Return ({| data := [ {| name := "report.tar.gz"; type := ".gz"; time := "2023-11-14 22:13:20" |};
                       {| name := "README"; type := ""; time := "2000-02-29 00:00:00" |} ] |}, 200).
Proof. vm_compute. reflexivity. Qed.

(** ** The monad: unfolding and observers *)

Lemma bind_unfold {A B} (m : Py A) (k : A → Py B) (w : world) :
  (m ≫= k) w = match m w with
               | (Return a, w') => k a w'
               | (Raise e, w') => (Raise e, w')
               end.
Proof. reflexivity. Qed.

Lemma ret_unfold {A} (a : A) (w : world) : mret (M := Py) a w = (Return a, w).
Proof. reflexivity. Qed.

#[global] Instance same_state_view : View same_state.
Proof.
  split.
  - split.
    + by intros w.
    + by intros w w' [? ?].
    + intros w1 w2 w3 [? ?] [? ?]; split; congruence.
  - by intros c w.
  - by intros w w' [_ ?].
Qed.

#[global] Instance same_fs_view : View same_fs.
Proof.
  split.
  - split.
    + by intros w.
    + by intros w w' ?.
    + intros w1 w2 w3 ? ?; unfold same_fs in *; congruence.
  - by intros c w.
  - by intros w w' ?.
Qed.

Section observers.
Context (R : relation world) `{!View R}.

Lemma observer_ret {A} (a : A) : observer R (mret (M := Py) a).
Proof.
  intros w; split; [reflexivity|].
  exists []; split; [by rewrite app_nil_r|].
  intros w' _; simpl; by rewrite app_nil_r.
Qed.

Lemma observer_lift {A} (r : outcome A) : observer R (py_lift r).
Proof.
  intros w; split; [reflexivity|].
  exists []; split; [by rewrite app_nil_r|].
  intros w' _; simpl; by rewrite app_nil_r.
Qed.

Lemma observer_stat path : observer R (os_stat path).
Proof.
  intros w; unfold os_stat; split.
  - destruct (fs w !! path); apply view_log.
  - exists [SysStat path]; split; [by destruct (fs w !! path)|].
    intros w' Hf%view_fs; rewrite <- Hf; by destruct (fs w !! path).
Qed.

Lemma observer_listdir path : observer R (os_listdir path).
Proof.
  intros w; unfold os_listdir; split.
  - destruct (fs w !! path) as [[[] ? []]|]; apply view_log.
  - exists [SysListdir path]; split;
      [by destruct (fs w !! path) as [[[] ? []]|]|].
    intros w' Hf%view_fs; rewrite <- Hf;
      by destruct (fs w !! path) as [[[] ? []]|].
Qed.

(** Where the second of two steps starts, in two runs from worlds that
    look alike. *)
Lemma observer_step {A} (m : Py A) (w w' : world) :
  observer R m → R w w' → R (m w).2 (m w').2.
Proof.
  intros Hm Hw. destruct (Hm w) as [Hs _], (Hm w') as [Hs' _].
  transitivity w; [by symmetry|]. by transitivity w'.
Qed.

Lemma observer_bind {A B} (m : Py A) (k : A → Py B) :
  observer R m → (∀ a, observer R (k a)) → observer R (m ≫= k).
Proof.
  intros Hm Hk w. rewrite bind_unfold.
  destruct (Hm w) as [Hs (l & Hl & Hdet)].
  destruct (m w) as [[a|e] w1] eqn:Hmw; simpl in *.
  - destruct (Hk a w1) as [Hs1 (l1 & Hl1 & Hdet1)]. split; [by transitivity w1|].
    exists (l ++ l1); split; [by rewrite Hl1, Hl, app_assoc|].
    intros w' Hw'. rewrite bind_unfold.
    destruct (Hdet w' Hw') as [Hr Hlog].
    pose proof (observer_step m w w' Hm Hw') as Hw1. rewrite Hmw in Hw1.
    destruct (m w') as [r' w1'] eqn:Hmw'; simpl in *; subst r'.
    destruct (Hdet1 w1' Hw1) as [Hr1 Hlog1]; split; [done|].
    by rewrite Hlog1, Hlog, app_assoc.
  - split; [done|]. exists l; split; [done|].
    intros w' Hw'. rewrite bind_unfold.
    destruct (Hdet w' Hw') as [Hr Hlog].
    destruct (m w') as [r' w1'] eqn:Hmw'; simpl in *; by subst r'.
Qed.

Lemma observer_try {A} (m h : Py A) catches :
  observer R m → observer R h → observer R (py_try m catches h).
Proof.
  intros Hm Hh w. unfold py_try.
  destruct (Hm w) as [Hs (l & Hl & Hdet)].
  destruct (m w) as [[a|e] w1] eqn:Hmw; simpl in *.
  - split; [done|]. exists l; split; [done|].
    intros w' Hw'. destruct (Hdet w' Hw') as [Hr Hlog].
    destruct (m w') as [r' w1'] eqn:Hmw'; simpl in *; by subst r'.
  - destruct (catches e) eqn:Hc.
    + destruct (Hh w1) as [Hs1 (l1 & Hl1 & Hdet1)]. split; [by transitivity w1|].
      exists (l ++ l1); split; [by rewrite Hl1, Hl, app_assoc|].
      intros w' Hw'. destruct (Hdet w' Hw') as [Hr Hlog].
      pose proof (observer_step m w w' Hm Hw') as Hw1. rewrite Hmw in Hw1.
      destruct (m w') as [r' w1'] eqn:Hmw'; simpl in *; subst r'.
      rewrite Hc.
      destruct (Hdet1 w1' Hw1) as [Hr1 Hlog1]; split; [done|].
      by rewrite Hlog1, Hlog, app_assoc.
    + split; [done|]. exists l; split; [done|].
      intros w' Hw'. destruct (Hdet w' Hw') as [Hr Hlog].
      destruct (m w') as [r' w1'] eqn:Hmw'; simpl in *; subst r'.
      by rewrite Hc.
Qed.

Ltac observe :=
  repeat first
    [ apply observer_bind; [|intros ?]
    | apply observer_try
    | apply observer_ret
    | apply observer_lift
    | apply observer_stat
    | apply observer_listdir
    | assumption ].

Lemma observer_getctime path : observer R (os_path_getctime path).
Proof. unfold os_path_getctime. observe. Qed.

Lemma observer_isfile path : observer R (os_path_isfile path).
Proof. unfold os_path_isfile. observe. Qed.

Lemma observer_for_f_in names directory resp :
  observer R (for_f_in names directory resp).
Proof.
  revert resp; induction names as [|f names IH]; intros resp; simpl.
  - apply observer_ret.
  - apply observer_bind; [apply observer_getctime|intros ctime].
    apply observer_bind; [apply observer_lift|intros t].
    apply observer_bind; [apply observer_isfile|intros isfile].
    apply IH.
Qed.

(** The handler once [DIRECTORY] has been read and the separator added:
[[
  for f in os.listdir(directory): ...
  return resp, 200
]] *)
Lemma observer_listing directory :
  observer R (names ← os_listdir directory;
              resp ← for_f_in names directory {| data := [] |};
              mret (resp, 200)).
Proof.
  apply observer_bind; [apply observer_listdir|intros names].
  apply observer_bind; [apply observer_for_f_in|intros resp].
  apply observer_ret.
Qed.

(** An observer run twice in a row gives the same outcome twice. *)
Lemma observer_twice {A} (m : Py A) (w : world) :
  observer R m → (m (m w).2).1 = (m w).1.
Proof.
  intros Hm. destruct (Hm w) as [Hs (l & _ & Hdet)].
  by destruct (Hdet _ Hs).
Qed.

Lemma observer_calls {A} (m : Py A) (w : world) :
  observer R m → syscalls (m w).2 = syscalls w ++ calls_of m w.
Proof.
  intros Hm. destruct (Hm w) as [_ (l & Hl & _)].
  unfold calls_of. by rewrite Hl, drop_app_length.
Qed.

(** The outcome and the calls of an observer depend on what [R] sees
    only. *)
Lemma observer_same {A} (m : Py A) (w w' : world) :
  observer R m → R w w' →
  (m w').1 = (m w).1 ∧ calls_of m w' = calls_of m w.
Proof.
  intros Hm Hs. destruct (Hm w) as [_ (l & Hl & Hdet)].
  destruct (Hdet w' Hs) as [? Hl']. split; [done|]. unfold calls_of.
  by rewrite Hl, Hl', !drop_app_length.
Qed.

(** The calls of two steps in sequence. *)
Lemma calls_of_bind {A B} (m : Py A) (k : A → Py B) (w : world) :
  observer R m → (∀ a, observer R (k a)) →
  calls_of (m ≫= k) w =
  calls_of m w ++ match (m w).1 with
                  | Return a => calls_of (k a) (m w).2
                  | Raise _ => []
                  end.
Proof.
  intros Hm Hk. pose proof (observer_calls m w Hm) as Hl.
  unfold calls_of at 1. rewrite bind_unfold.
  destruct (m w) as [[a|e] w1] eqn:Hmw; simpl in *.
  - rewrite (observer_calls (k a) w1 (Hk a)), Hl, <- app_assoc.
    by rewrite drop_app_length.
  - by rewrite Hl, drop_app_length, app_nil_r.
Qed.
End observers.

Lemma observer_getenv k dflt : observer same_state (os_getenv k dflt).
Proof.
  intros w; split; [reflexivity|].
  exists []; split; [by rewrite app_nil_r|].
  intros w' [He _]; simpl; by rewrite app_nil_r, He.
Qed.

Lemma observer_get : observer same_state get.
Proof.
  unfold get.
  apply observer_bind; [apply _|apply observer_getenv|intros d].
  apply observer_bind; [apply _|apply observer_lift, _|intros d'].
  apply observer_listing, _.
Qed.

(** ** Strings: the last character *)

Lemma string_app_cons (a : ascii) (s t : string) :
  String a s +:+ t = String a (s +:+ t).
Proof. reflexivity. Qed.


Lemma string_length_app (s t : string) :
  String.length (s +:+ t) = (String.length s + String.length t)%nat.
Proof. induction s as [|a s IH]; simpl; [done|]. by rewrite IH. Qed.

Lemma string_snoc (s : string) :
  s ≠ "" → ∃ s' c, s = s' +:+ String c "".
Proof.
  induction s as [|a s IH]; [done|]. intros _.
  destruct s as [|b s].
  - by exists "", a.
  - destruct IH as (s' & c & Hs); [done|].
    exists (String a s'), c. by rewrite string_app_cons, Hs.
Qed.

Lemma string_get_snoc (s : string) (c : ascii) :
  String.get (String.length s) (s +:+ String c "") = Some c.
Proof. induction s as [|a s IH]; simpl; [done|]. apply IH. Qed.

Lemma getitem_last (s : string) (c : ascii) :
  getitem (s +:+ String c "") (-1) = Return c.
Proof.
  unfold getitem, from_end, len. rewrite string_length_app. simpl.
  replace (-1 + Z.of_nat (String.length s + 1)) with (Z.of_nat (String.length s))
    by lia.
  rewrite Nat2Z.id, string_get_snoc.
  destruct (Z.ltb_spec (Z.of_nat (String.length s)) 0); [lia|].
  destruct (Z.leb_spec (Z.of_nat (String.length s + 1)) (Z.of_nat (String.length s)));
    [lia|done].
Qed.

Lemma string_app_assoc (s t u : string) : (s +:+ t) +:+ u = s +:+ (t +:+ u).
Proof.
  induction s as [|a s IH]; [done|]. by rewrite !string_app_cons, IH.
Qed.


(** ** The trailing separator *)

Lemma add_trailing_separator_empty :
  add_trailing_separator "" = Raise IndexError.
Proof. reflexivity. Qed.

Lemma add_trailing_separator_present (d : string) :
  add_trailing_separator (d +:+ "/") = Return (d +:+ "/").
Proof. unfold add_trailing_separator. by rewrite getitem_last. Qed.


Lemma add_trailing_separator_total (d : string) :
  d ≠ "" → ∃ d', add_trailing_separator d = Return d'.
Proof.
  intros Hne. destruct (string_snoc d Hne) as (d' & c & ->).
  unfold add_trailing_separator. rewrite getitem_last.
  case_bool_decide; eauto.
Qed.

(** ** Running the handler *)

(** The handler, once the directory has been read from the environment and
    given its trailing separator. *)
Lemma get_unfold (w : world) (d : string) :
  add_trailing_separator (configured_directory w) = Return d →
  get w = (names ← os_listdir d;
           resp ← for_f_in names d {| data := [] |};
           mret (resp, 200)) w.
Proof.
  intros Hd. unfold get. rewrite bind_unfold. unfold os_getenv.
  fold (configured_directory w). rewrite bind_unfold. unfold py_lift.
  by rewrite Hd.
Qed.

Lemma get_raises (w : world) (e : exn) :
  add_trailing_separator (configured_directory w) = Raise e →
  get w = (Raise e, w).
Proof.
  intros Hd. unfold get. rewrite bind_unfold. unfold os_getenv.
  fold (configured_directory w). rewrite bind_unfold. unfold py_lift.
  by rewrite Hd.
Qed.

(** ** The system calls of the handler *)

Lemma calls_of_stat path w : calls_of (os_stat path) w = [SysStat path].
Proof.
  unfold calls_of, os_stat.
  destruct (fs w !! path); simpl; by rewrite drop_app_length.
Qed.

Lemma calls_of_listdir path w : calls_of (os_listdir path) w = [SysListdir path].
Proof.
  unfold calls_of, os_listdir.
  destruct (fs w !! path) as [[[] ? []]|]; simpl; by rewrite drop_app_length.
Qed.

Lemma calls_of_getctime path w :
  calls_of (os_path_getctime path) w = [SysStat path].
Proof.
  unfold calls_of, os_path_getctime. rewrite bind_unfold. unfold os_stat.
  destruct (fs w !! path); simpl; by rewrite drop_app_length.
Qed.

Lemma calls_of_isfile path w :
  calls_of (os_path_isfile path) w = [SysStat path].
Proof.
  unfold calls_of, os_path_isfile, py_try. rewrite bind_unfold. unfold os_stat.
  destruct (fs w !! path); simpl; by rewrite drop_app_length.
Qed.

Lemma calls_of_lift {A} (r : outcome A) w : calls_of (py_lift r) w = [].
Proof. unfold calls_of; simpl. by rewrite drop_all. Qed.

Lemma calls_of_ret {A} (a : A) w : calls_of (mret (M := Py) a) w = [].
Proof. unfold calls_of; simpl. by rewrite drop_all. Qed.

(** The loop lists no directory: it only reads metadata. *)
Lemma for_f_in_lists_nothing names directory resp w :
  listed_by (for_f_in names directory resp) w = [].
Proof.
  revert resp w; induction names as [|f names IH]; intros resp w; simpl.
  - unfold listed_by. by rewrite calls_of_ret.
  - unfold listed_by.
    rewrite (calls_of_bind same_fs), calls_of_getctime;
      [|apply observer_getctime, _
       |intros ?; repeat (apply observer_bind; [apply _| |intros ?]);
        first [apply observer_lift, _|apply observer_isfile, _
              |apply observer_for_f_in, _]].
    simpl. destruct (os_path_getctime _ w) as [[ctime|e] w1]; simpl; [|done].
    rewrite (calls_of_bind same_fs), calls_of_lift;
      [|apply observer_lift, _
       |intros ?; repeat (apply observer_bind; [apply _| |intros ?]);
        first [apply observer_isfile, _|apply observer_for_f_in, _]].
    simpl. destruct (format_timestamp _) as [t|e]; simpl; [|done].
    rewrite (calls_of_bind same_fs), calls_of_isfile;
      [|apply observer_isfile, _|intros ?; apply observer_for_f_in, _].
    simpl. destruct (os_path_isfile _ w1) as [[isfile|e] w2]; simpl; [|done].
    apply IH.
Qed.

(** A request lists exactly one directory: the one [DIRECTORY] names when
    the request is handled, with its trailing separator. *)
Lemma get_lists (w : world) (d : string) :
  add_trailing_separator (configured_directory w) = Return d →
  listed_by get w = [d].
Proof.
  intros Hd. unfold listed_by, calls_of. rewrite (get_unfold w d Hd).
  fold (calls_of (names ← os_listdir d;
                  resp ← for_f_in names d {| data := [] |};
                  mret (resp, 200)) w).
  rewrite (calls_of_bind same_fs), calls_of_listdir;
    [|apply observer_listdir, _
     |intros ?; apply observer_bind;
        [apply _|apply observer_for_f_in, _|intros ?; apply observer_ret, _]].
  simpl. destruct (os_listdir d w) as [[names|e] w1]; simpl; [|done].
  f_equal.
  rewrite (calls_of_bind same_fs);
    [|apply observer_for_f_in, _|intros ?; apply observer_ret, _].
  rewrite omap_app. fold (listed_by (for_f_in names d {| data := [] |}) w1).
  rewrite for_f_in_lists_nothing.
  destruct (for_f_in names d _ w1) as [[resp|e] w2]; simpl; [|done].
  by rewrite calls_of_ret.
Qed.

(** ** The configuration *)

Lemma Config_unfold (w : world) :
  Config w =
  (Return {| DEBUG := py_eq (from_option PyStr (PyBool false)
                                         (environ w !! "PROJECT_DEBUG"))
                            (PyStr "True") |},
   set_environ (<["DIRECTORY" := "./"]> (environ w)) w).
Proof.
  unfold Config. rewrite bind_unfold. unfold os_environ_setitem.
  rewrite bind_unfold. unfold os_environ_get, set_environ. cbn [environ].
  by rewrite lookup_insert_ne.
Qed.

(** Whatever [DIRECTORY] held before, it holds [./] once [config] is
    imported. *)
Lemma Config_sets_DIRECTORY (w : world) :
  environ (Config w).2 !! "DIRECTORY" = Some "./".
Proof. rewrite Config_unfold. simpl. apply lookup_insert_eq. Qed.

Lemma Config_configured_directory (w : world) :
  configured_directory (Config w).2 = "./".
Proof. unfold configured_directory. by rewrite Config_sets_DIRECTORY. Qed.

(** C6: the debug flag is true exactly when [PROJECT_DEBUG] is set to the
    string [True]; for any other value, and when the variable is unset, it
    is false. Resolving the configuration always succeeds. *)
Theorem Config_DEBUG_iff (w : world) :
  ∃ cfg w', Config w = (Return cfg, w') ∧
            (DEBUG cfg = true ↔ environ w !! "PROJECT_DEBUG" = Some "True").
Proof.
  rewrite Config_unfold. eexists _, _; split; [reflexivity|]. simpl.
  destruct (environ w !! "PROJECT_DEBUG") as [s|]; simpl.
  - rewrite bool_decide_eq_true. split; congruence.
  - split; discriminate.
Qed.

(** C2, evaluated on a process that was started with [DIRECTORY=/srv/]:
    importing [config] replaces the value by [./], and the next request
    lists [./], not [/srv/]. *)
Theorem Config_overwrites_DIRECTORY :
  let w := sample_world {["DIRECTORY" := "/srv/"]} in
  environ w !! "DIRECTORY" = Some "/srv/" ∧
  environ (Config w).2 !! "DIRECTORY" = Some "./" ∧
  listed_by get (Config w).2 = ["./"].
Proof. vm_compute. done. Qed.

(** ** Requests *)

(** C9: the handler changes neither the environment nor the file system,
    and its outcome depends on nothing else; so a second invocation right
    after the first returns the same outcome, and in particular the same set
    of entries. *)
Theorem get_idempotent (w : world) :
  same_state w (get w).2 ∧
  (get (get w).2).1 = (get w).1 ∧
  ∀ e, e ∈ data_of (get (get w).2).1 ↔ e ∈ data_of (get w).1.
Proof.
  pose proof (observer_twice same_state get w observer_get) as Heq.
  split; [apply (observer_get w)|]. split; [done|].
  intros e. by rewrite Heq.
Qed.

(** C10: with [DIRECTORY] set to the empty string the handler raises
    [IndexError] before any system call and returns no response; adding the
    trailing separator succeeds exactly on non-empty paths. *)
Theorem get_empty_DIRECTORY (w : world) :
  environ w !! "DIRECTORY" = Some "" →
  get w = (Raise IndexError, w) ∧
  ∀ d, (∃ d', add_trailing_separator d = Return d') ↔ d ≠ "".
Proof.
  intros He. split.
  - apply get_raises. unfold configured_directory. by rewrite He.
  - intros d; split.
    + intros [d' Hd'] ->. by rewrite add_trailing_separator_empty in Hd'.
    + apply add_trailing_separator_total.
Qed.

Lemma get_empty_DIRECTORY_witness :
  get (sample_world {["DIRECTORY" := ""]})
  = (Raise IndexError, sample_world {["DIRECTORY" := ""]}).
Proof.
  apply (get_empty_DIRECTORY (sample_world {["DIRECTORY" := ""]})).
  vm_compute. reflexivity.
Defined.

(** C1, as the claim states it, fails: with [DIRECTORY=/nowhere], a
    directory that does not exist, the handler returns no response at all,
    with status 404 or any other; it raises [FileNotFoundError]. *)
Lemma get_missing_directory_raises :
  let w := sample_world {["DIRECTORY" := "/nowhere"]} in
  fs w !! "/nowhere/" = None ∧
  (get w).1 = Raise FileNotFoundError ∧
  ¬ ∃ resp status, (get w).1 = Return (resp, status).
Proof.
  split; [by vm_compute|]. split; [by vm_compute|].
  intros (resp & status & H). vm_compute in H. discriminate H.
Qed.

(** C1, amended: when the configured directory does not exist, the
    [FileNotFoundError] of [os.listdir] leaves the handler unhandled; the
    handler returns no response, so never an empty list. *)
Theorem get_missing_directory (w : world) (d : string) :
  add_trailing_separator (configured_directory w) = Return d →
  fs w !! d = None →
  (get w).1 = Raise FileNotFoundError ∧
  listed_by get w = [d] ∧ stats_of get w = [] ∧
  ∀ resp status, (get w).1 ≠ Return (resp, status).
Proof.
  intros Hd Hfs.
  assert ((get w).1 = Raise FileNotFoundError
          ∧ calls_of get w = [SysListdir d]) as [Hr Hc].
  { unfold calls_of. rewrite (get_unfold w d Hd), bind_unfold.
    unfold os_listdir. rewrite Hfs. simpl. by rewrite drop_app_length. }
  split; [done|]. split; [by apply get_lists|].
  split; [unfold stats_of; by rewrite Hc|].
  intros resp status. by rewrite Hr.
Qed.

Lemma get_missing_directory_witness :
  (get (sample_world {["DIRECTORY" := "/nowhere"]})).1 = Raise FileNotFoundError.
Proof.
  apply (get_missing_directory (sample_world {["DIRECTORY" := "/nowhere"]})
                               "/nowhere/").
  - vm_compute. reflexivity.
  - vm_compute. reflexivity.
Defined.

(** ** The directory of a request *)

Lemma configured_directory_set (d : string) (w : world) :
  configured_directory (os_environ_setitem "DIRECTORY" d w).2 = d.
Proof.
  unfold configured_directory, os_environ_setitem, set_environ. cbn [snd environ].
  by rewrite lookup_insert_eq.
Qed.

Lemma configured_directory_same (w w' : world) :
  same_state w w' → configured_directory w' = configured_directory w.
Proof. intros [He _]. unfold configured_directory. by rewrite He. Qed.

(** C3, as the claim states it, fails: after start-up a first request lists
    [./]; once [DIRECTORY] is changed to [/srv/], the next request lists
    [/srv/] and answers differently. *)
Lemma directory_follows_environment :
  let w1 := (Config (sample_world ∅)).2 in
  let w2 := (get w1).2 in
  let w3 := (os_environ_setitem "DIRECTORY" "/srv/" w2).2 in
  listed_by get w1 = ["./"] ∧ listed_by get w3 = ["/srv/"] ∧
  (get w3).1 ≠ (get w1).1.
Proof. vm_compute. split; [done|]. split; [done|]. discriminate. Qed.

Lemma requests_same_state (n : nat) (w : world) : same_state w (requests n w).
Proof.
  induction n as [|n IH]; [reflexivity|]. cbn [requests].
  transitivity (requests n w); [done|]. apply (observer_get (requests n w)).
Qed.

(** C3, amended: the directory is not resolved once and kept. Each request
    reads [DIRECTORY] when it is handled, [./] standing in when the variable
    is unset, and lists the directory it names then, with its trailing
    separator. So the requests that follow one another in an unchanged
    environment, however many, leave the environment as it is and list the
    same directory; and once [DIRECTORY] is set to a non-empty [d] between
    two requests, the next request lists [d]. *)
Theorem get_lists_DIRECTORY_of_request (w : world) (n : nat) (d0 d d' : string) :
  add_trailing_separator (default "./" (environ w !! "DIRECTORY")) = Return d0 →
  add_trailing_separator d = Return d' →
  environ (requests n w) = environ w ∧
  listed_by get (requests n w) = [d0] ∧
  listed_by get (os_environ_setitem "DIRECTORY" d (requests n w)).2 = [d'].
Proof.
  intros Hd0 Hd. pose proof (requests_same_state n w) as Hs.
  split; [symmetry; apply Hs|]. split.
  - apply get_lists. by rewrite (configured_directory_same w).
  - apply get_lists. by rewrite configured_directory_set.
Qed.

Lemma get_lists_DIRECTORY_of_request_witness :
  environ (requests 2 (sample_world ∅)) = environ (sample_world ∅) ∧
  listed_by get (requests 2 (sample_world ∅)) = ["./"] ∧
  listed_by get (os_environ_setitem "DIRECTORY" "/srv"
                   (requests 2 (sample_world ∅))).2 = ["/srv/"].
Proof.
  apply (get_lists_DIRECTORY_of_request (sample_world ∅) 2 "./" "/srv" "/srv/").
  - vm_compute. reflexivity.
  - vm_compute. reflexivity.
Defined.



(** ** The loop over the entries *)

Lemma getctime_run (path : string) (w : world) :
  os_path_getctime path w =
  (match fs w !! path with
   | Some i => Return (st_ctime i)
   | None => Raise FileNotFoundError
   end, log_syscall (SysStat path) w).
Proof.
  unfold os_path_getctime. rewrite bind_unfold. unfold os_stat.
  by destruct (fs w !! path).
Qed.

(** [os.path.isfile] never raises: a path that resolves to nothing is not a
    file. *)
Lemma isfile_run (path : string) (w : world) :
  os_path_isfile path w =
  (Return (is_regular_file w path), log_syscall (SysStat path) w).
Proof.
  unfold os_path_isfile, py_try, is_regular_file. rewrite bind_unfold.
  unfold os_stat. by destruct (fs w !! path).
Qed.

(** One iteration: the change time is read and formatted first, for every
    entry; only then is the entry tested. *)
Lemma for_f_in_cons (f : string) (names : list string) (d : string)
    (resp : MetaResponse) (w : world) :
  for_f_in (f :: names) d resp w =
  let w1 := log_syscall (SysStat (d +:+ f)) w in
  match fs w !! (d +:+ f) with
  | None => (Raise FileNotFoundError, w1)
  | Some i =>
      match format_timestamp (int_of_float (st_ctime i)) with
      | Raise e => (Raise e, w1)
      | Return t =>
          for_f_in names d
            (if S_ISREG (st_mode i)
             then append resp {| name := f; type := (splitext f).2; time := t |}
             else resp)
            (log_syscall (SysStat (d +:+ f)) w1)
      end
  end.
Proof.
  cbn [for_f_in]. rewrite bind_unfold, getctime_run.
  destruct (fs w !! (d +:+ f)) as [i|] eqn:Hi; [|done].
  rewrite bind_unfold. unfold py_lift.
  destruct (format_timestamp _) as [t|e]; [|done].
  rewrite bind_unfold, isfile_run. unfold is_regular_file.
  cbn [fs log_syscall]. by rewrite Hi.
Qed.

(** When the loop completes, it has appended one entry per name that
    resolves to a regular file, in order, and nothing else. *)
Lemma for_f_in_returns (names : list string) (d : string) (w0 : world) :
  ∀ resp w resp' w',
    fs w = fs w0 →
    for_f_in names d resp w = (Return resp', w') →
    ∃ entries,
      data resp' = data resp ++ entries ∧
      name <$> entries = filter (λ f, is_regular_file w0 (d +:+ f) = true) names ∧
      Forall (describes w0 d) entries.
Proof.
  induction names as [|f names IH]; intros resp w resp' w' Hfs Hrun.
  - inversion Hrun; subst. exists []. by rewrite app_nil_r.
  - rewrite for_f_in_cons in Hrun. cbn zeta in Hrun.
    destruct (fs w !! (d +:+ f)) as [i|] eqn:Hi; [|done].
    destruct (format_timestamp _) as [t|e] eqn:Ht; [|done].
    apply IH in Hrun as (entries & Hdata & Hnames & Hall); [|done].
    rewrite Hfs in Hi.
    destruct (S_ISREG (st_mode i)) eqn:Hreg.
    + exists ({| name := f; type := (splitext f).2; time := t |} :: entries).
      split; [by rewrite Hdata; cbn; rewrite <- app_assoc|]. split.
      * rewrite filter_cons_True; [by rewrite fmap_cons, Hnames|].
        unfold is_regular_file. by rewrite Hi.
      * constructor; [|done]. unfold describes, is_regular_file. cbn.
        rewrite Hi. eauto.
    + exists entries. split; [done|]. split; [|done].
      rewrite filter_cons_False; [done|].
      unfold is_regular_file. rewrite Hi, Hreg. done.
Qed.

(** The loop completes when every entry has a change time that can be
    read and formatted. *)
Lemma for_f_in_total (names : list string) (d : string) (w0 : world) :
  Forall (λ f, dated w0 (d +:+ f)) names →
  ∀ resp w, fs w = fs w0 →
            ∃ resp' w', for_f_in names d resp w = (Return resp', w').
Proof.
  induction 1 as [|f names (i & t & Hi & Ht) _ IH]; intros resp w Hfs.
  - by eexists _, _.
  - rewrite for_f_in_cons. cbn zeta. rewrite Hfs, Hi, Ht. by apply IH.
Qed.

(** The loop fails at the first entry that resolves to nothing. *)
Lemma for_f_in_unresolved (f : string) (names : list string) (d : string)
    (resp : MetaResponse) (w : world) :
  fs w !! (d +:+ f) = None →
  (for_f_in (f :: names) d resp w).1 = Raise FileNotFoundError.
Proof. intros Hf. rewrite for_f_in_cons. cbn zeta. by rewrite Hf. Qed.

Lemma listdir_run (w : world) (d : string) (names : list string) :
  readable_directory w d names →
  os_listdir d w = (Return names, log_syscall (SysListdir d) w).
Proof.
  intros (i & Hi & Hmode & Hnames). unfold os_listdir.
  by rewrite Hi, Hmode, Hnames.
Qed.

(** The handler on a readable directory. *)
Lemma get_readable (w : world) (d : string) (names : list string) :
  add_trailing_separator (configured_directory w) = Return d →
  readable_directory w d names →
  get w = match for_f_in names d {| data := [] |} (log_syscall (SysListdir d) w) with
          | (Return resp, w') => (Return (resp, 200), w')
          | (Raise e, w') => (Raise e, w')
          end.
Proof.
  intros Hd Hdir. rewrite (get_unfold w d Hd), bind_unfold.
  rewrite (listdir_run w d names Hdir), bind_unfold.
  by destruct (for_f_in _ _ _ _) as [[resp|e] w'].
Qed.

(** What a response holds: one entry per name that resolves to a regular
    file, in enumeration order. *)
Lemma get_returns_entries (w : world) (d : string) (names : list string)
    (resp : MetaResponse) (status : Z) :
  add_trailing_separator (configured_directory w) = Return d →
  readable_directory w d names →
  (get w).1 = Return (resp, status) →
  status = 200 ∧
  name <$> data resp = filter (λ f, is_regular_file w (d +:+ f) = true) names ∧
  Forall (describes w d) (data resp).
Proof.
  intros Hd Hdir Hr. rewrite (get_readable w d names Hd Hdir) in Hr.
  destruct (for_f_in _ _ _ _) as [[resp'|e] w'] eqn:Hloop; [|done].
  inversion Hr; subst.
  apply (for_f_in_returns names d w) in Hloop
    as (entries & Hdata & Hnames & Hall); [|done].
  cbn in Hdata. by rewrite Hdata.
Qed.

(** The test of the code, [S_ISREG] on the mode that [os.stat] reports,
    holds exactly of the paths that resolve to a regular file. *)
Lemma is_regular_file_regular_at (w : world) (path : string) :
  is_regular_file w path = regular_at w path.
Proof.
  unfold is_regular_file, regular_at.
  destruct (fs w !! path) as [[[] ctime entries]|]; by cbn.
Qed.

(** On a readable directory in which the change time of every entry can be
    read and formatted, the request succeeds with status 200, and its
    entries name exactly the listed names that resolve to a regular file,
    one entry each and in enumeration order: subdirectories and other
    entries are left out. The [type] of an entry is the extension that
    [os.path.splitext] gives to its name and its [time] is the formatted
    change time of its file. *)
Theorem get_entries_of_regular_files (w : world) (d : string)
    (names : list string) :
  add_trailing_separator (configured_directory w) = Return d →
  readable_directory w d names →
  Forall (λ f, dated w (d +:+ f)) names →
  ∃ resp,
    (get w).1 = Return (resp, 200) ∧
    name <$> data resp = filter (λ f, regular_at w (d +:+ f) = true) names ∧
    Forall (λ e, type e = (splitext (name e)).2 ∧
                 ∃ i, fs w !! (d +:+ name e) = Some i ∧
                      format_timestamp (int_of_float (st_ctime i))
                      = Return (time e))
           (data resp).
Proof.
  intros Hd Hdir Hdated.
  destruct (for_f_in_total names d w Hdated {| data := [] |}
              (log_syscall (SysListdir d) w)) as (resp & w' & Hloop); [done|].
  assert ((get w).1 = Return (resp, 200)) as Hr
    by (by rewrite (get_readable w d names Hd Hdir), Hloop).
  exists resp. split; [done|].
  destruct (get_returns_entries w d names resp 200 Hd Hdir Hr)
    as (_ & Hnames & Hall).
  split.
  - rewrite Hnames. apply list_filter_iff. intros f.
    by rewrite is_regular_file_regular_at.
  - eapply Forall_impl; [exact Hall|]. by intros e (_ & ? & ?).
Qed.

Lemma get_entries_of_regular_files_witness :
  ∃ resp,
    (get (sample_world ∅)).1 = Return (resp, 200) ∧
    name <$> data resp
    = filter (λ f, regular_at (sample_world ∅) ("./" +:+ f) = true)
             ["report.tar.gz"; "sub"; "README"] ∧
    Forall (λ e, type e = (splitext (name e)).2 ∧
                 ∃ i, fs (sample_world ∅) !! ("./" +:+ name e) = Some i ∧
                      format_timestamp (int_of_float (st_ctime i))
                      = Return (time e))
           (data resp).
Proof.
  apply (get_entries_of_regular_files (sample_world ∅) "./"
           ["report.tar.gz"; "sub"; "README"]).
  - vm_compute. reflexivity.
  - exists (directory_of 1700000000 ["report.tar.gz"; "sub"; "README"]).
    vm_compute. split; [reflexivity|]. split; reflexivity.
  - apply Forall_cons_2;
      [exists (regular (17000000005 # 10)), "2023-11-14 22:13:20";
       vm_compute; split; reflexivity|].
    apply Forall_cons_2;
      [exists (directory_of 1700000100 []), "2023-11-14 22:15:00";
       vm_compute; split; reflexivity|].
    apply Forall_cons_2;
      [exists (regular 951782400), "2000-02-29 00:00:00";
       vm_compute; split; reflexivity|].
    apply Forall_nil_2.
Defined.

(** C7, evaluated on the readable directory [/lnk/], which holds the regular
    file [a.txt] and a symbolic link whose target is missing: the request
    raises [FileNotFoundError], so that it returns no entry at all, none for
    [a.txt] either. *)
Theorem get_returns_nothing_beside_dangling_link :
  let w := sample_world {["DIRECTORY" := "/lnk/"]} in
  readable_directory w "/lnk/" ["a.txt"; "gone"] ∧
  regular_at w "/lnk/a.txt" = true ∧
  fs w !! "/lnk/gone" = None ∧
  (get w).1 = Raise FileNotFoundError ∧
  data_of (get w).1 = [] ∧
  ¬ ∃ resp status, (get w).1 = Return (resp, status).
Proof.
  split.
  { exists (directory_of 1700000000 ["a.txt"; "gone"]). vm_compute.
    split; [reflexivity|]. split; reflexivity. }
  split; [by vm_compute|]. split; [by vm_compute|].
  split; [by vm_compute|]. split; [by vm_compute|].
  intros (resp & status & H). vm_compute in H. discriminate H.
Qed.

(** C5, evaluated on a directory that holds a regular file and a symbolic
    link whose target is missing: the change time of the link is read, before
    the link is tested, and the request fails with [FileNotFoundError]. In
    the directory [./] the metadata of the subdirectory [sub] is read
    although [sub] is not a regular file. *)
Theorem get_reads_ctime_before_isfile :
  let w := sample_world {["DIRECTORY" := "/lnk/"]} in
  is_regular_file w "/lnk/gone" = false ∧
  calls_of get w = [SysListdir "/lnk/"; SysStat "/lnk/a.txt";
                    SysStat "/lnk/a.txt"; SysStat "/lnk/gone"] ∧
  (get w).1 = Raise FileNotFoundError ∧
  is_regular_file (sample_world ∅) "./sub" = false ∧
  "./sub" ∈ stats_of get (sample_world ∅).
Proof.
  vm_compute. repeat split.
  apply list_elem_of_In. vm_compute. tauto.
Qed.

(** ** Strings: prefixes, suffixes and [rfind] *)

Lemma string_drop_length (n : nat) (s : string) :
  String.length (string_drop n s) = (String.length s - n)%nat.
Proof.
  revert s; induction n as [|n IH]; intros [|a s]; simpl; by try lia.
Qed.

Lemma string_take_length (n : nat) (s : string) :
  (n ≤ String.length s)%nat → String.length (string_take n s) = n.
Proof.
  revert s; induction n as [|n IH]; intros [|a s] Hn; simpl in *; try done.
  - lia.
  - rewrite IH; [done|lia].
Qed.

Lemma string_take_all (n : nat) (s : string) :
  (String.length s ≤ n)%nat → string_take n s = s.
Proof.
  revert s; induction n as [|n IH]; intros [|a s] Hn; simpl in *; try done.
  - lia.
  - rewrite IH; [done|lia].
Qed.

Lemma string_drop_all (n : nat) (s : string) :
  (String.length s ≤ n)%nat → string_drop n s = "".
Proof.
  revert s; induction n as [|n IH]; intros [|a s] Hn; simpl in *; try done.
  - lia.
  - apply IH; lia.
Qed.

(** The character at position [i], seen from the string and from a prefix
    that reaches beyond [i]. *)
Lemma string_drop_take_cons (i k : nat) (p : string) :
  (i < k)%nat → (k ≤ String.length p)%nat →
  ∃ c, string_drop i p = String c (string_drop (S i) p) ∧
       string_drop i (string_take k p)
       = String c (string_drop (S i) (string_take k p)).
Proof.
  revert k p; induction i as [|i IH]; intros k p Hik Hk.
  - destruct k as [|k]; [lia|]. destruct p as [|a p]; simpl in *; [lia|].
    by exists a.
  - destruct k as [|k]; [lia|]. destruct p as [|a p]; simpl in *; [lia|].
    apply IH; lia.
Qed.

Lemma slice_inside (s : string) (lo hi : Z) :
  0 ≤ lo ≤ hi → hi ≤ len s →
  slice s lo hi
  = string_take (Z.to_nat (hi - lo)) (string_drop (Z.to_nat lo) s).
Proof.
  intros Hlo Hhi. unfold slice, from_end.
  destruct (Z.ltb_spec hi 0); [lia|]. destruct (Z.ltb_spec lo 0); [lia|].
  by rewrite !Z.min_r, !Z.max_r by lia.
Qed.

Lemma slice_nil (s : string) : slice s 0 0 = "".
Proof. rewrite slice_inside by (unfold len; lia). reflexivity. Qed.

Lemma slice_prefix (s : string) (k : nat) :
  (k ≤ String.length s)%nat → slice s 0 (Z.of_nat k) = string_take k s.
Proof.
  intros Hk. rewrite slice_inside by (unfold len; lia).
  by rewrite Z.sub_0_r, Nat2Z.id.
Qed.

Lemma slice_from_suffix (s : string) (k : nat) :
  (k ≤ String.length s)%nat → slice_from s (Z.of_nat k) = string_drop k s.
Proof.
  intros Hk. unfold slice_from. rewrite slice_inside by (unfold len; lia).
  rewrite Nat2Z.id. apply string_take_all.
  rewrite string_drop_length. unfold len. lia.
Qed.

Lemma rfind_range (c : ascii) (s : string) : -1 ≤ rfind c s < len s.
Proof.
  unfold len. induction s as [|a s IH]; simpl; [lia|].
  destruct (Z.leb_spec 0 (rfind c s)); [lia|].
  case_bool_decide; lia.
Qed.

Lemma rfind_absent (c : ascii) (s : string) :
  occurs c s = false → rfind c s = -1.
Proof.
  induction s as [|a s IH]; simpl; [done|].
  intros [Ha Hs]%orb_false_iff. rewrite (IH Hs). simpl.
  by rewrite Ha.
Qed.

(** [rfind] finds the last period, where the extension of the
    specification begins. *)
Lemma rfind_last_period (s : string) :
  match last_period_suffix s with
  | None => rfind "." s = -1
  | Some t => 0 ≤ rfind "." s ∧ t = string_drop (Z.to_nat (rfind "." s)) s
  end.
Proof.
  induction s as [|a s IH]; simpl; [done|].
  destruct (last_period_suffix s) as [t|].
  - destruct IH as [Hr ->].
    destruct (Z.leb_spec 0 (rfind "." s)); [|lia]. split; [lia|].
    replace (Z.to_nat (rfind "." s + 1)) with (S (Z.to_nat (rfind "." s)))
      by lia.
    done.
  - rewrite IH. simpl. by case_bool_decide.
Qed.

(** ** [os.path.splitext] against the specification *)

Lemma skip_leading_dots_spec (p : string) (k : nat) :
  (k ≤ String.length p)%nat →
  ∀ n i, (i + n = k)%nat →
    skip_leading_dots p "." (Z.of_nat k) n (Z.of_nat i)
    = if all_periods (string_drop i (string_take k p))
      then (p, "")
      else (string_take k p, string_drop k p).
Proof.
  intros Hk. induction n as [|n IH]; intros i Hi.
  - assert (i = k) as -> by lia. cbn [skip_leading_dots].
    rewrite slice_nil, string_drop_all; [done|]. by rewrite string_take_length.
  - cbn [skip_leading_dots].
    destruct (Z.ltb_spec (Z.of_nat i) (Z.of_nat k)); [|lia].
    destruct (string_drop_take_cons i k p) as (c & Hp & Hpre); [lia|done|].
    rewrite Hpre. cbn [all_periods].
    rewrite slice_inside by (unfold len; lia).
    replace (Z.to_nat (Z.of_nat i + 1 - Z.of_nat i)) with 1%nat by lia.
    rewrite Nat2Z.id, Hp. cbn [string_take].
    case_bool_decide as Hc.
    + rewrite bool_decide_false by congruence. cbn [andb].
      by rewrite slice_prefix, slice_from_suffix.
    + assert (c = "."%char) as -> by (destruct (decide (c = "."%char)); congruence).
      rewrite bool_decide_true by done. cbn [andb].
      replace (Z.of_nat i + 1) with (Z.of_nat (S i)) by lia.
      apply IH. lia.
Qed.

Lemma stem_take (f : string) :
  stem f = match last_period_suffix f with
           | None => f
           | Some _ => string_take (Z.to_nat (rfind "." f)) f
           end.
Proof.
  unfold stem, spec_extension. pose proof (rfind_last_period f) as Hr.
  pose proof (rfind_range "." f) as Hrange. unfold len in Hrange.
  destruct (last_period_suffix f) as [t|]; simpl.
  - destruct Hr as [Hr ->]. rewrite string_drop_length. f_equal. lia.
  - apply string_take_all. lia.
Qed.

(** The extension that [os.path.splitext] gives to a file name: the one of
    the specification, unless nothing but periods precede the last
    period. *)
Lemma splitext_spec (f : string) :
  occurs "/" f = false →
  (splitext f).2 = if all_periods (stem f) then "" else spec_extension f.
Proof.
  intros Hsep. unfold splitext, genericpath_splitext.
  rewrite (rfind_absent _ _ Hsep), stem_take. unfold spec_extension.
  pose proof (rfind_last_period f) as Hr.
  pose proof (rfind_range "." f) as Hrange. unfold len in Hrange.
  destruct (last_period_suffix f) as [t|]; simpl.
  - destruct Hr as [Hr ->].
    destruct (Z.ltb_spec (-1) (rfind "." f)); [|lia].
    replace (rfind "." f - (-1 + 1)) with (rfind "." f) by lia.
    change (-1 + 1) with (Z.of_nat 0).
    pose proof (skip_leading_dots_spec f (Z.to_nat (rfind "." f))) as Hloop.
    rewrite Z2Nat.id in Hloop by done.
    rewrite (Hloop ltac:(lia) (Z.to_nat (rfind "." f)) 0%nat) by lia.
    cbn [string_drop]. by destruct (all_periods _).
  - rewrite Hr, slice_nil. cbn. by destruct (all_periods f).
Qed.

(** A response comes from a readable directory. *)
Lemma get_returns_inv (w : world) (resp : MetaResponse) (status : Z) :
  (get w).1 = Return (resp, status) →
  ∃ d names, add_trailing_separator (configured_directory w) = Return d ∧
             readable_directory w d names.
Proof.
  intros Hr.
  destruct (add_trailing_separator (configured_directory w)) as [d|e] eqn:Hd;
    [|by rewrite (get_raises w e Hd) in Hr].
  exists d. rewrite (get_unfold w d Hd), bind_unfold in Hr.
  unfold os_listdir in Hr.
  destruct (fs w !! d) as [[[] ctime [names|]]|] eqn:Hi; try done.
  exists names; split; [done|]. by eexists.
Qed.

(** C4, as the claim states it, fails: the file [.bashrc] contains a period,
    and the substring from its last period is [.bashrc], but its entry has
    the empty string as [type]. *)
Lemma hidden_file_has_empty_type :
  let w := sample_world {["DIRECTORY" := "/srv/"]} in
  ∃ e, (get w).1 = Return ({| data := [e] |}, 200) ∧
       name e = ".bashrc" ∧ type e = "" ∧
       spec_extension (name e) = ".bashrc" ∧
       type e ≠ spec_extension (name e).
Proof.
  eexists. vm_compute. split; [reflexivity|]. repeat split. discriminate.
Qed.

(** C4, amended: the [type] of an entry is the substring of the file name
    from its last period on, provided a character other than a period comes
    before that period; it is the empty string when the name has no period
    and when only periods, or nothing, precede the last one. *)
Theorem type_is_extension (w : world) (resp : MetaResponse) (status : Z)
    (e : FileEntry) :
  (get w).1 = Return (resp, status) →
  e ∈ data resp →
  occurs "/" (name e) = false →
  type e = (if all_periods (stem (name e)) then "" else spec_extension (name e)) ∧
  (last_period_suffix (name e) = None → type e = "").
Proof.
  intros Hr He Hsep.
  destruct (get_returns_inv w resp status Hr) as (d & names & Hd & Hdir).
  destruct (get_returns_entries w d names resp status Hd Hdir Hr)
    as (_ & _ & Hall).
  rewrite Forall_forall in Hall. destruct (Hall e He) as (_ & Htype & _).
  rewrite Htype, splitext_spec by done. split; [done|].
  unfold spec_extension. intros ->. by destruct (all_periods _).
Qed.

Lemma type_is_extension_witness :
  ".gz" = (if all_periods (stem "report.tar.gz") then ""
           else spec_extension "report.tar.gz").
Proof.
  refine (proj1 (type_is_extension (sample_world ∅)
    {| data := [ {| name := "report.tar.gz"; type := ".gz";
                    time := "2023-11-14 22:13:20" |};
                 {| name := "README"; type := "";
                    time := "2000-02-29 00:00:00" |} ] |}
    200
    {| name := "report.tar.gz"; type := ".gz"; time := "2023-11-14 22:13:20" |}
    _ _ _)).
  - vm_compute. reflexivity.
  - apply list_elem_of_here.
  - vm_compute. reflexivity.
Defined.

(** ** The handler: edge cases and system calls *)

Lemma calls_of_log {A} (m : Py A) (w : world) (l : list syscall) :
  syscalls (m w).2 = syscalls w ++ l → calls_of m w = l.
Proof. intros Hl. unfold calls_of. by rewrite Hl, drop_app_length. Qed.

(** An empty directory gives the empty list with status 200, after the one
    call that lists it. *)
Theorem get_empty_directory (w : world) (d : string) :
  add_trailing_separator (configured_directory w) = Return d →
  readable_directory w d [] →
  get w = (Return ({| data := [] |}, 200), log_syscall (SysListdir d) w).
Proof. intros Hd Hdir. by rewrite (get_readable w d [] Hd Hdir). Qed.

Lemma get_empty_directory_witness :
  get (empty_directory_world {["DIRECTORY" := "/empty"]})
  = (Return ({| data := [] |}, 200),
     log_syscall (SysListdir "/empty/")
       (empty_directory_world {["DIRECTORY" := "/empty"]})).
Proof.
  apply (get_empty_directory
           (empty_directory_world {["DIRECTORY" := "/empty"]}) "/empty/").
  - vm_compute. reflexivity.
  - exists (directory_of 1700000000 []). vm_compute.
    split; [reflexivity|]. split; reflexivity.
Defined.

(** The handler catches nothing: whatever exception [os.listdir] raises is
    the outcome of the request, and no metadata is read. *)
Theorem get_listdir_raises (w : world) (d : string) (e : exn) :
  add_trailing_separator (configured_directory w) = Return d →
  (os_listdir d w).1 = Raise e →
  (get w).1 = Raise e ∧ calls_of get w = [SysListdir d].
Proof.
  intros Hd He. pose proof (calls_of_listdir d w) as Hc.
  unfold calls_of in *. rewrite (get_unfold w d Hd), bind_unfold.
  destruct (os_listdir d w) as [[names|e'] w1]; simpl in *; [done|].
  by inversion He; subst.
Qed.

Lemma get_listdir_raises_witness :
  (get (unreadable_directory_world {["DIRECTORY" := "/private"]})).1
  = Raise PermissionError ∧
  calls_of get (unreadable_directory_world {["DIRECTORY" := "/private"]})
  = [SysListdir "/private/"].
Proof.
  apply (get_listdir_raises
           (unreadable_directory_world {["DIRECTORY" := "/private"]})
           "/private/" PermissionError).
  - vm_compute. reflexivity.
  - vm_compute. reflexivity.
Defined.

(** The log of a loop that completes. *)
Lemma for_f_in_log (names : list string) (d : string) (w0 : world) :
  Forall (λ f, dated w0 (d +:+ f)) names →
  ∀ resp w, fs w = fs w0 →
            syscalls (for_f_in names d resp w).2
            = syscalls w ++ stat_calls d names.
Proof.
  induction 1 as [|f names (i & t & Hi & Ht) _ IH]; intros resp w Hfs.
  - simpl. by rewrite app_nil_r.
  - rewrite for_f_in_cons. cbn zeta. rewrite Hfs, Hi, Ht.
    rewrite IH by done. cbn. by rewrite <- !app_assoc.
Qed.

(** The loop stops at the first name that resolves to nothing. *)
Lemma for_f_in_stops (pre : list string) (f : string) (post : list string)
    (d : string) (w0 : world) :
  Forall (λ f, dated w0 (d +:+ f)) pre →
  fs w0 !! (d +:+ f) = None →
  ∀ resp w, fs w = fs w0 →
            (for_f_in (pre ++ f :: post) d resp w).1 = Raise FileNotFoundError ∧
            syscalls (for_f_in (pre ++ f :: post) d resp w).2
            = syscalls w ++ stat_calls d pre ++ [SysStat (d +:+ f)].
Proof.
  intros Hpre Hf.
  induction Hpre as [|g pre (i & t & Hi & Ht) _ IH]; intros resp w Hfs.
  - cbn [app]. rewrite for_f_in_cons. cbn zeta. by rewrite Hfs, Hf.
  - cbn [app]. rewrite for_f_in_cons. cbn zeta. rewrite Hfs, Hi, Ht.
    destruct (IH (if S_ISREG (st_mode i)
                  then append resp {| name := g; type := (splitext g).2; time := t |}
                  else resp)
                 (log_syscall (SysStat (d +:+ g)) (log_syscall (SysStat (d +:+ g)) w)))
      as [Hr Hl]; [done|].
    split; [done|]. rewrite Hl. cbn. by rewrite <- !app_assoc.
Qed.

(** The system calls of a request that succeeds: the configured directory
    is listed once, then the metadata of every entry is read twice, regular
    file or not, in enumeration order. Nothing else is listed or read; in
    particular no subdirectory is entered. *)
Theorem get_calls (w : world) (d : string) (names : list string) :
  add_trailing_separator (configured_directory w) = Return d →
  readable_directory w d names →
  Forall (λ f, dated w (d +:+ f)) names →
  calls_of get w = SysListdir d :: stat_calls d names.
Proof.
  intros Hd Hdir Hdated. apply calls_of_log.
  rewrite (get_readable w d names Hd Hdir).
  pose proof (for_f_in_log names d w Hdated {| data := [] |}
                (log_syscall (SysListdir d) w) eq_refl) as Hl.
  destruct (for_f_in _ _ _ _) as [[resp|e] w']; simpl in *;
    by rewrite Hl, <- app_assoc.
Qed.

Lemma get_calls_witness :
  calls_of get (sample_world {["DIRECTORY" := "/srv"]})
  = [SysListdir "/srv/"; SysStat "/srv/.bashrc"; SysStat "/srv/.bashrc"].
Proof.
  apply (get_calls (sample_world {["DIRECTORY" := "/srv"]}) "/srv/" [".bashrc"]).
  - vm_compute. reflexivity.
  - exists (directory_of 1700000000 [".bashrc"]). vm_compute.
    split; [reflexivity|]. split; reflexivity.
  - apply Forall_cons_2; [|apply Forall_nil_2].
    exists (regular 0), "1970-01-01 00:00:00". vm_compute. split; reflexivity.
Defined.

(** A request fails at the first entry that resolves to nothing, wherever it
    stands in the listing: the entries before it have been read, the ones
    after it are not, and the outcome is [FileNotFoundError]. *)
Theorem get_stops_at_unresolved (w : world) (d : string)
    (pre : list string) (f : string) (post : list string) :
  add_trailing_separator (configured_directory w) = Return d →
  readable_directory w d (pre ++ f :: post) →
  Forall (λ g, dated w (d +:+ g)) pre →
  fs w !! (d +:+ f) = None →
  (get w).1 = Raise FileNotFoundError ∧
  calls_of get w = SysListdir d :: stat_calls d pre ++ [SysStat (d +:+ f)].
Proof.
  intros Hd Hdir Hpre Hf.
  destruct (for_f_in_stops pre f post d w Hpre Hf {| data := [] |}
              (log_syscall (SysListdir d) w) eq_refl) as [Hr Hl].
  split.
  - rewrite (get_readable w d _ Hd Hdir).
    destruct (for_f_in _ _ _ _) as [[resp|e] w']; simpl in *; [done|].
    by inversion Hr.
  - apply calls_of_log. rewrite (get_readable w d _ Hd Hdir).
    destruct (for_f_in _ _ _ _) as [[resp|e] w']; simpl in *;
      by rewrite Hl, <- app_assoc.
Qed.

Lemma get_stops_at_unresolved_witness :
  (get (sample_world {["DIRECTORY" := "/lnk/"]})).1 = Raise FileNotFoundError ∧
  calls_of get (sample_world {["DIRECTORY" := "/lnk/"]})
  = [SysListdir "/lnk/"; SysStat "/lnk/a.txt"; SysStat "/lnk/a.txt";
     SysStat "/lnk/gone"].
Proof.
  apply (get_stops_at_unresolved (sample_world {["DIRECTORY" := "/lnk/"]})
           "/lnk/" ["a.txt"] "gone" []).
  - vm_compute. reflexivity.
  - exists (directory_of 1700000000 ["a.txt"; "gone"]). vm_compute.
    split; [reflexivity|]. split; reflexivity.
  - apply Forall_cons_2; [|apply Forall_nil_2].
    exists (regular 0), "1970-01-01 00:00:00". vm_compute. split; reflexivity.
  - vm_compute. reflexivity.
Defined.

(** ** What a request depends on *)

(** Two requests that are configured to the same directory, over the same
    file system, answer alike. *)
Lemma get_same_directory (w w' : world) (d : string) :
  fs w = fs w' →
  add_trailing_separator (configured_directory w) = Return d →
  add_trailing_separator (configured_directory w') = Return d →
  (get w).1 = (get w').1 ∧ calls_of get w = calls_of get w'.
Proof.
  intros Hfs Hd Hd'. unfold calls_of.
  rewrite (get_unfold w d Hd), (get_unfold w' d Hd').
  symmetry in Hfs.
  destruct (observer_same same_fs _ w' w (observer_listing same_fs d) Hfs)
    as [Hr Hc].
  split; [done|]. exact Hc.
Qed.

(** Of the environment a request reads [DIRECTORY] and nothing else: two
    worlds with the same file system that agree on [DIRECTORY] get the same
    outcome through the same system calls, whatever [PROJECT_DEBUG] and the
    other variables hold. *)
Theorem get_reads_only_DIRECTORY (w w' : world) :
  fs w = fs w' →
  environ w !! "DIRECTORY" = environ w' !! "DIRECTORY" →
  (get w).1 = (get w').1 ∧ calls_of get w = calls_of get w'.
Proof.
  intros Hfs Henv.
  assert (configured_directory w' = configured_directory w) as Hc
    by (unfold configured_directory; by rewrite Henv).
  destruct (add_trailing_separator (configured_directory w)) as [d|e] eqn:Hd.
  - apply (get_same_directory w w' d); [done|done|by rewrite Hc].
  - rewrite <- Hc in Hd at 1.
    assert (add_trailing_separator (configured_directory w) = Raise e) as Hd0
      by (by rewrite <- Hc).
    unfold calls_of. rewrite (get_raises w e Hd0), (get_raises w' e Hd).
    simpl. by rewrite !drop_all.
Qed.

Lemma get_reads_only_DIRECTORY_witness :
  (get (sample_world {["DIRECTORY" := "/srv/"]})).1
  = (get (sample_world (<["PROJECT_DEBUG" := "True"]> {["DIRECTORY" := "/srv/"]}))).1 ∧
  calls_of get (sample_world {["DIRECTORY" := "/srv/"]})
  = calls_of get (sample_world (<["PROJECT_DEBUG" := "True"]> {["DIRECTORY" := "/srv/"]})).
Proof.
  apply (get_reads_only_DIRECTORY
           (sample_world {["DIRECTORY" := "/srv/"]})
           (sample_world (<["PROJECT_DEBUG" := "True"]> {["DIRECTORY" := "/srv/"]}))).
  - reflexivity.
  - vm_compute. reflexivity.
Defined.

(** When [DIRECTORY] is unset the request is served as if it were set to
    [./], and equally as if it were set to [.]: the three requests have the
    same outcome and make the same system calls. *)
Theorem get_default_directory (w : world) :
  environ w !! "DIRECTORY" = None →
  let w1 := (os_environ_setitem "DIRECTORY" "./" w).2 in
  let w2 := (os_environ_setitem "DIRECTORY" "." w).2 in
  listed_by get w = ["./"] ∧
  (get w).1 = (get w1).1 ∧ calls_of get w = calls_of get w1 ∧
  (get w).1 = (get w2).1 ∧ calls_of get w = calls_of get w2.
Proof.
  intros Hunset w1 w2.
  assert (add_trailing_separator (configured_directory w) = Return "./") as Hd
    by (unfold configured_directory; by rewrite Hunset).
  assert (add_trailing_separator (configured_directory w1) = Return "./") as Hd1
    by (unfold w1; by rewrite configured_directory_set).
  assert (add_trailing_separator (configured_directory w2) = Return "./") as Hd2
    by (unfold w2; by rewrite configured_directory_set).
  split; [by apply get_lists|].
  destruct (get_same_directory w w1 "./" eq_refl Hd Hd1) as [? ?].
  destruct (get_same_directory w w2 "./" eq_refl Hd Hd2) as [? ?].
  done.
Qed.

Lemma get_default_directory_witness :
  listed_by get (sample_world ∅) = ["./"] ∧
  (get (sample_world ∅)).1 = (get (sample_world {["DIRECTORY" := "."]})).1.
Proof.
  destruct (get_default_directory (sample_world ∅)) as (H1 & _ & _ & H2 & _).
  - vm_compute. reflexivity.
  - split; [exact H1|exact H2].
Defined.

(** ** The trailing separator, again *)

(** What the first lines of the handler make of a path: the path itself or
    the path with one separator added, in either case a path that ends in a
    separator and that the same lines leave as it is. *)
Theorem add_trailing_separator_idempotent (d d' : string) :
  add_trailing_separator d = Return d' →
  (d' = d ∨ d' = d +:+ "/") ∧
  ends_in_separator d' ∧
  add_trailing_separator d' = Return d'.
Proof.
  intros Hd.
  assert (d ≠ "") as Hne by (intros ->; by rewrite add_trailing_separator_empty in Hd).
  destruct (string_snoc d Hne) as (s & c & ->).
  unfold add_trailing_separator in Hd. rewrite getitem_last in Hd.
  case_bool_decide as Hc; inversion Hd; subst.
  - split; [by right|]. split; [by eexists|].
    apply add_trailing_separator_present.
  - split; [by left|]. split; [by exists s|].
    apply add_trailing_separator_present.
Qed.

Lemma add_trailing_separator_idempotent_witness :
  ends_in_separator "/srv/" ∧ add_trailing_separator "/srv/" = Return "/srv/".
Proof.
  refine (proj2 (add_trailing_separator_idempotent "/srv" "/srv/" _)).
  vm_compute. reflexivity.
Defined.

(** ** The configuration, again *)

(** Importing [config] touches one variable: every variable other than
    [DIRECTORY] keeps its value, the file system and the log of system calls
    are as before, and running the class body a second time changes nothing
    and yields the same configuration. *)
Theorem Config_frame (w : world) (k : string) :
  k ≠ "DIRECTORY" →
  environ (Config w).2 !! k = environ w !! k ∧
  fs (Config w).2 = fs w ∧
  syscalls (Config w).2 = syscalls w ∧
  Config (Config w).2 = Config w.
Proof.
  intros Hk. rewrite !Config_unfold. unfold set_environ. cbn [snd environ fs syscalls].
  split; [by rewrite lookup_insert_ne|]. split; [done|]. split; [done|].
  by rewrite insert_insert_eq, lookup_insert_ne.
Qed.

Lemma Config_frame_witness :
  environ (Config (sample_world {["PROJECT_DEBUG" := "True"]})).2 !! "PROJECT_DEBUG"
  = environ (sample_world {["PROJECT_DEBUG" := "True"]}) !! "PROJECT_DEBUG".
Proof.
  refine (proj1 (Config_frame (sample_world {["PROJECT_DEBUG" := "True"]})
                              "PROJECT_DEBUG" _)).
  discriminate.
Defined.

(** ** The exceptions of a request *)

Lemma os_listdir_exn (d : string) (w : world) (e : exn) :
  (os_listdir d w).1 = Raise e → e ≠ IndexError.
Proof.
  unfold os_listdir.
  destruct (fs w !! d) as [[[] ctime [names|]]|]; simpl; intros H;
    inversion H; by subst.
Qed.

Lemma format_timestamp_exn (ts : Z) (e : exn) :
  format_timestamp ts = Raise e → e ≠ IndexError.
Proof.
  unfold format_timestamp, utcfromtimestamp.
  destruct (_ || _); [intros H; inversion H; by subst|].
  destruct (civil_from_days _) as [[y m] dd].
  destruct (_ || _); [intros H; inversion H; by subst|].
  destruct (_ && _); intros H; inversion H; by subst.
Qed.

(** The loop never raises [IndexError]. *)
Lemma for_f_in_exn (names : list string) (d : string) (e : exn) :
  ∀ resp w, (for_f_in names d resp w).1 = Raise e → e ≠ IndexError.
Proof.
  induction names as [|f names IH]; intros resp w Hr; [done|].
  rewrite for_f_in_cons in Hr. cbn zeta in Hr.
  destruct (fs w !! (d +:+ f)) as [i|]; [|inversion Hr; by subst].
  destruct (format_timestamp _) as [t|e'] eqn:Ht.
  - by apply IH in Hr.
  - inversion Hr; subst. by apply format_timestamp_exn in Ht.
Qed.

(** A request raises [IndexError] exactly when [DIRECTORY] holds the empty
    string. [config] sets the variable to [./], so the first request after
    start-up never does. *)
Theorem get_IndexError_iff (w : world) :
  ((get w).1 = Raise IndexError ↔ configured_directory w = "") ∧
  (get (Config w).2).1 ≠ Raise IndexError.
Proof.
  assert (∀ w0, (get w0).1 = Raise IndexError ↔ configured_directory w0 = "")
    as Hiff.
  { intros w0. split.
    - intros Hr.
      destruct (decide (configured_directory w0 = "")) as [|Hne]; [done|].
      destruct (add_trailing_separator_total _ Hne) as [d Hd].
      rewrite (get_unfold w0 d Hd), bind_unfold in Hr.
      destruct (os_listdir d w0) as [[names|e] w1] eqn:Hl; simpl in Hr.
      + rewrite bind_unfold in Hr.
        destruct (for_f_in names d _ w1) as [[resp|e] w2] eqn:Hloop; [done|].
        simpl in Hr. inversion Hr; subst.
        pose proof (for_f_in_exn names d IndexError {| data := [] |} w1) as He.
        rewrite Hloop in He. by specialize (He eq_refl).
      + inversion Hr; subst.
        pose proof (os_listdir_exn d w0 IndexError) as He.
        rewrite Hl in He. by specialize (He eq_refl).
    - intros Hd. rewrite (get_raises w0 IndexError); [done|].
      by rewrite Hd. }
  split; [apply Hiff|].
  rewrite Hiff, Config_configured_directory. done.
Qed.

(** ** Names and types *)

Lemma string_take_drop (k : nat) (s : string) :
  string_take k s +:+ string_drop k s = s.
Proof.
  revert s; induction k as [|k IH]; intros [|a s]; try done.
  cbn [string_take string_drop]. by rewrite string_app_cons, IH.
Qed.

Lemma skip_leading_dots_cases (p : string) (extsep : ascii) (dotIndex : Z)
    (n : nat) (filenameIndex : Z) :
  skip_leading_dots p extsep dotIndex n filenameIndex = (p, slice p 0 0) ∨
  skip_leading_dots p extsep dotIndex n filenameIndex
  = (slice p 0 dotIndex, slice_from p dotIndex).
Proof.
  revert filenameIndex; induction n as [|n IH]; intros i; [by left|].
  cbn [skip_leading_dots].
  destruct (i <? dotIndex); [|by left].
  case_bool_decide; [by right|apply IH].
Qed.

(** [os.path.splitext] splits: the root followed by the extension is the
    path. *)
Lemma splitext_join (p : string) : (splitext p).1 +:+ (splitext p).2 = p.
Proof.
  unfold splitext, genericpath_splitext.
  assert ((p, slice p 0 0).1 +:+ (p, slice p 0 0).2 = p) as Hwhole.
  { cbn [fst snd]. rewrite slice_nil. clear.
    induction p as [|a p IH]; [done|]. by rewrite string_app_cons, IH. }
  pose proof (rfind_range "/" p) as Hsep.
  pose proof (rfind_range "." p) as Hdot. unfold len in *.
  destruct (Z.ltb_spec (rfind "/" p) (rfind "." p)); [|done].
  destruct (skip_leading_dots_cases p "." (rfind "." p)
              (Z.to_nat (rfind "." p - (rfind "/" p + 1))) (rfind "/" p + 1))
    as [-> | ->]; [done|].
  cbn [fst snd].
  rewrite <- (Z2Nat.id (rfind "." p)) by lia.
  rewrite slice_prefix, slice_from_suffix by lia.
  apply string_take_drop.
Qed.

Lemma last_period_suffix_none (s : string) :
  last_period_suffix s = None → occurs "." s = false.
Proof.
  induction s as [|a s IH]; [done|]. cbn [last_period_suffix occurs].
  destruct (last_period_suffix s); [done|].
  case_bool_decide; [done|]. intros _. by rewrite IH.
Qed.

Lemma last_period_suffix_shape (s t : string) :
  last_period_suffix s = Some t →
  ∃ t', t = String "." t' ∧ occurs "." t' = false.
Proof.
  induction s as [|a s IH]; [done|]. cbn [last_period_suffix].
  destruct (last_period_suffix s) as [u|] eqn:Hs.
  - intros [= <-]. by apply IH.
  - case_bool_decide as Ha; [|done]. intros [= <-]. subst a.
    exists s. split; [done|]. by apply last_period_suffix_none.
Qed.

(** The [type] of an entry is what the name ends in: the name is the root
    that [os.path.splitext] computes followed by the [type]. *)
Theorem type_is_suffix_of_name (w : world) (resp : MetaResponse) (status : Z)
    (e : FileEntry) :
  (get w).1 = Return (resp, status) →
  e ∈ data resp →
  name e = (splitext (name e)).1 +:+ type e.
Proof.
  intros Hr He.
  destruct (get_returns_inv w resp status Hr) as (d & names & Hd & Hdir).
  destruct (get_returns_entries w d names resp status Hd Hdir Hr)
    as (_ & _ & Hall).
  rewrite Forall_forall in Hall. destruct (Hall e He) as (_ & -> & _).
  by rewrite splitext_join.
Qed.

Lemma type_is_suffix_of_name_witness :
  "report.tar.gz" = (splitext "report.tar.gz").1 +:+ ".gz".
Proof.
  refine (type_is_suffix_of_name (sample_world ∅)
    {| data := [ {| name := "report.tar.gz"; type := ".gz";
                    time := "2023-11-14 22:13:20" |};
                 {| name := "README"; type := "";
                    time := "2000-02-29 00:00:00" |} ] |}
    200
    {| name := "report.tar.gz"; type := ".gz"; time := "2023-11-14 22:13:20" |}
    _ _).
  - vm_compute. reflexivity.
  - apply list_elem_of_here.
Defined.

(** The [type] of an entry is empty, or a period followed by characters
    none of which is a period. *)
Theorem type_has_one_period (w : world) (resp : MetaResponse) (status : Z)
    (e : FileEntry) :
  (get w).1 = Return (resp, status) →
  e ∈ data resp →
  occurs "/" (name e) = false →
  type e = "" ∨ ∃ t, type e = String "." t ∧ occurs "." t = false.
Proof.
  intros Hr He Hsep.
  destruct (get_returns_inv w resp status Hr) as (d & names & Hd & Hdir).
  destruct (get_returns_entries w d names resp status Hd Hdir Hr)
    as (_ & _ & Hall).
  rewrite Forall_forall in Hall. destruct (Hall e He) as (_ & -> & _).
  rewrite splitext_spec by done.
  destruct (all_periods _); [by left|].
  unfold spec_extension.
  destruct (last_period_suffix (name e)) as [t|] eqn:Ht; [|by left].
  right. by apply (last_period_suffix_shape (name e)).
Qed.

Lemma type_has_one_period_witness :
  ".gz" = "" ∨ ∃ t, ".gz" = String "." t ∧ occurs "." t = false.
Proof.
  refine (type_has_one_period (sample_world ∅)
    {| data := [ {| name := "report.tar.gz"; type := ".gz";
                    time := "2023-11-14 22:13:20" |};
                 {| name := "README"; type := "";
                    time := "2000-02-29 00:00:00" |} ] |}
    200
    {| name := "report.tar.gz"; type := ".gz"; time := "2023-11-14 22:13:20" |}
    _ _ _).
  - vm_compute. reflexivity.
  - apply list_elem_of_here.
  - vm_compute. reflexivity.
Defined.

(** ** The enumeration order *)

(** When the loop completes, every name was dated, and the entries it has
    appended are the ones [entry_of] gives, name by name. *)
Lemma for_f_in_data (names : list string) (d : string) (w0 : world) :
  ∀ resp w resp' w',
    fs w = fs w0 →
    for_f_in names d resp w = (Return resp', w') →
    data resp' = data resp ++ omap (entry_of w0 d) names ∧
    Forall (λ f, dated w0 (d +:+ f)) names.
Proof.
  induction names as [|f names IH]; intros resp w resp' w' Hfs Hrun.
  - inversion Hrun; subst. cbn. by rewrite app_nil_r.
  - rewrite for_f_in_cons in Hrun. cbn zeta in Hrun.
    destruct (fs w !! (d +:+ f)) as [i|] eqn:Hi; [|done].
    destruct (format_timestamp _) as [t|e] eqn:Ht; [|done].
    apply IH in Hrun as [Hdata Hdated]; [|done].
    rewrite Hfs in Hi. split.
    + rewrite Hdata. cbn [omap list_omap]. unfold entry_of at 2.
      rewrite Hi, Ht. destruct (S_ISREG (st_mode i)); [|done].
      cbn. by rewrite <- app_assoc.
    + apply Forall_cons_2; [by exists i, t|done].
Qed.

Lemma entry_of_ext (w w' : world) (d f : string) :
  fs w' !! (d +:+ f) = fs w !! (d +:+ f) → entry_of w' d f = entry_of w d f.
Proof. intros H. unfold entry_of. by rewrite H. Qed.

Lemma dated_ext (w w' : world) (path : string) :
  fs w' !! path = fs w !! path → dated w path → dated w' path.
Proof. intros H (i & t & Hi & Ht). exists i, t. by rewrite H. Qed.

(** The entries of a response do not depend on the order in which the
    directory is enumerated: if the same names come in another order, and
    resolve to the same files, the request succeeds as well and returns the
    same entries, reordered. *)
Theorem get_order_independent (w w' : world) (d : string)
    (names names' : list string) (resp : MetaResponse) :
  add_trailing_separator (configured_directory w) = Return d →
  add_trailing_separator (configured_directory w') = Return d →
  readable_directory w d names →
  readable_directory w' d names' →
  names ≡ₚ names' →
  (∀ f, f ∈ names → fs w' !! (d +:+ f) = fs w !! (d +:+ f)) →
  (get w).1 = Return (resp, 200) →
  ∃ resp', (get w').1 = Return (resp', 200) ∧ data resp' ≡ₚ data resp.
Proof.
  intros Hd Hd' Hdir Hdir' Hperm Hsame Hr.
  rewrite (get_readable w d names Hd Hdir) in Hr.
  destruct (for_f_in names d _ _) as [[r|e] w1] eqn:Hloop; [|done].
  simpl in Hr. inversion Hr; subst r.
  apply (for_f_in_data names d w) in Hloop as [Hdata Hdated]; [|done].
  assert (Forall (λ f, dated w' (d +:+ f)) names') as Hdated'.
  { rewrite <- Hperm. rewrite Forall_forall in Hdated.
    apply Forall_forall. intros f Hf.
    apply (dated_ext w w'); [by apply Hsame|by apply Hdated]. }
  destruct (for_f_in_total names' d w' Hdated' {| data := [] |}
              (log_syscall (SysListdir d) w') eq_refl) as (resp' & w2 & Hloop').
  exists resp'. rewrite (get_readable w' d names' Hd' Hdir'), Hloop'.
  split; [done|].
  apply (for_f_in_data names' d w') in Hloop' as [Hdata' _]; [|done].
  rewrite Hdata, Hdata'. cbn [data app]. rewrite <- Hperm.
  assert (omap (entry_of w' d) names = omap (entry_of w d) names) as ->; [|done].
  clear -Hsame. induction names as [|f names IH]; [done|].
  cbn [omap list_omap]. rewrite (entry_of_ext w w') by (apply Hsame; left).
  rewrite IH; [done|]. intros g Hg. apply Hsame. by right.
Qed.

Lemma get_order_independent_witness :
  ∃ resp', (get (reordered_world ∅)).1 = Return (resp', 200) ∧
           data resp' ≡ₚ
           [ {| name := "report.tar.gz"; type := ".gz";
                time := "2023-11-14 22:13:20" |};
             {| name := "README"; type := ""; time := "2000-02-29 00:00:00" |} ].
Proof.
  refine (get_order_independent (sample_world ∅) (reordered_world ∅) "./"
    ["report.tar.gz"; "sub"; "README"] ["README"; "sub"; "report.tar.gz"]
    {| data := [ {| name := "report.tar.gz"; type := ".gz";
                    time := "2023-11-14 22:13:20" |};
                 {| name := "README"; type := "";
                    time := "2000-02-29 00:00:00" |} ] |}
    _ _ _ _ _ _ _).
  - vm_compute. reflexivity.
  - vm_compute. reflexivity.
  - exists (directory_of 1700000000 ["report.tar.gz"; "sub"; "README"]).
    vm_compute. split; [reflexivity|]. split; reflexivity.
  - exists (directory_of 1700000000 ["README"; "sub"; "report.tar.gz"]).
    vm_compute. split; [reflexivity|]. split; reflexivity.
  - transitivity ["sub"; "report.tar.gz"; "README"]; [apply Permutation_swap|].
    transitivity ["sub"; "README"; "report.tar.gz"];
      [apply perm_skip, Permutation_swap|].
    apply Permutation_swap.
  - intros f Hf.
    apply elem_of_cons in Hf as [->|Hf]; [vm_compute; reflexivity|].
    apply elem_of_cons in Hf as [->|Hf]; [vm_compute; reflexivity|].
    apply elem_of_cons in Hf as [->|Hf]; [vm_compute; reflexivity|].
    by apply elem_of_nil in Hf.
  - vm_compute. reflexivity.
Defined.
